(** * Within-host viral dynamics model: production rates and forward model

    A shallow embedding of [main_fig.py]: the two production-rate
    functions [production_rate_step] and [production_rate_tanh], and the
    class [Model] with its constructor, setters, [n_parameters] and
    [simulate].

    Conventions of the embedding.
    - Python floats are read as real numbers ([R]): rounding and overflow
      are not represented.  What [np.log10] returns outside its domain
      ([-inf] at 0, [nan] below 0) is represented ([npfloat]).  What
      Python does by raising an exception is represented: every operation
      that can raise returns a [result].
    - A method of [Model] is a function from the object's fields to a
      result and the object's fields afterwards ([method]).  Where the
      arrays a call shares with its caller matter, the arrays live in a
      store and the fields hold references ([Object], [simulate_obj]).
    - [scipy.integrate.solve_ivp] is not part of the program.  It enters
      as a parameter of type [integrator]; what is assumed of it is named
      where it is used. *)

From Stdlib Require Import Reals Lra List String Ascii Bool Arith Lia.
From Stdlib Require Import DecimalString.
Import ListNotations.

Open Scope R_scope.

(** ** Exceptions and results *)

Inductive exn : Type :=
| ValueError (msg : string)
| ZeroDivisionError (msg : string)
| UnboundLocalError (msg : string)
| IndexError (msg : string)
| AttributeError (msg : string)
| OtherError (cls msg : string).

Inductive result (A : Type) : Type :=
| Ok (a : A)
| Raise (e : exn).

Arguments Ok {A} a.
Arguments Raise {A} e.

Definition rbind {A B} (r : result A) (k : A -> result B) : result B :=
  match r with
  | Ok a => k a
  | Raise e => Raise e
  end.

Definition is_ok {A} (r : result A) : bool :=
  match r with Ok _ => true | Raise _ => false end.

(** ** Strings of error messages *)

Definition str_of_nat (n : nat) : string :=
  NilEmpty.string_of_uint (Nat.to_uint n).

(** [contains needle hay]: [needle in hay]. *)
Fixpoint contains (needle hay : string) : bool :=
  if String.prefix needle hay then true
  else match hay with
       | EmptyString => false
       | String _ rest => contains needle rest
       end.

(** ** Comparisons of floats, as booleans *)

Definition ltb (x y : R) : bool := if Rlt_dec x y then true else false.
Definition leb (x y : R) : bool := if Rle_dec x y then true else false.

(** [a / b] where [b] is not a literal: division by zero raises. *)
Definition truediv (a b : R) : result R :=
  if Req_dec_T b 0 then Raise (ZeroDivisionError "float division by zero")
  else Ok (a / b).

(** ** Production rates *)

Definition production_rate_step (t t_treat p0 epsilon : R) : R :=
  if ltb t t_treat then p0
  else p0 * (1 - epsilon).

Definition production_rate_tanh (t t_treat T_max p0 epsilon : R) : result R :=
  rbind (truediv (t - (t_treat + 0.5 * T_max)) (0.25 * T_max)) (fun arg =>
  Ok (- (p0 * epsilon / 2) * tanh arg + p0 - (p0 * epsilon / 2))).

(** ** Sequences and arrays *)

(** [a, b, c = y] and [a, b, c, d, e = parameters]. *)
Definition unpack_error (expected got : nat) : exn :=
  if (got <? expected)%nat
  then ValueError ("not enough values to unpack (expected "
                   ++ str_of_nat expected ++ ", got " ++ str_of_nat got ++ ")")
  else ValueError ("too many values to unpack (expected "
                   ++ str_of_nat expected ++ ")").

Definition unpack3 (l : list R) : result (R * R * R) :=
  match l with
  | [a; b; c] => Ok (a, b, c)
  | _ => Raise (unpack_error 3 (List.length l))
  end.

Definition unpack5 (l : list R) : result (R * R * R * R * R) :=
  match l with
  | [a; b; c; d; e] => Ok (a, b, c, d, e)
  | _ => Raise (unpack_error 5 (List.length l))
  end.

(** The builtin [max] on a sequence. *)
Definition py_max (l : list R) : result R :=
  match l with
  | [] => Raise (ValueError "max() arg is an empty sequence")
  | x :: xs => Ok (fold_left (fun m v => if ltb m v then v else m) xs x)
  end.

(** A numpy array of one dimension ([ndim = 1]) or of two ([ndim = 2]). *)
Inductive ndarray : Type :=
| Arr1 (v : list R)
| Arr2 (rows : list (list R)).

(** What [res.y] is: an array, or the empty Python list that [solve_ivp]
    leaves there when it took no sample at a requested time.  A list has
    no attribute [ndim]. *)
Inductive samples : Type :=
| Samples (a : ndarray)
| NoSamples.

(** [rows[i]] on a two-dimensional array. *)
Definition getrow (rows : list (list R)) (i : nat) : result (list R) :=
  match nth_error rows i with
  | Some r => Ok r
  | None => Raise (IndexError ("index " ++ str_of_nat i
                   ++ " is out of bounds for axis 0 with size "
                   ++ str_of_nat (List.length rows)))
  end.

(** [10**(0.7)], and the logarithm to base 10 of a positive number. *)
Definition limit_of_quantification : R := Rpower 10 0.7.
Definition log10 (x : R) : R := ln x / ln 10.

(** A float that [np.log10] returns: a number, [-inf] or [nan]. *)
Inductive npfloat : Type :=
| Finite (x : R)
| NegInf
| NaN.

(** [np.log10]: [-inf] at 0 and [nan] below 0, with a warning and no
    exception. *)
Definition np_log10 (x : R) : npfloat :=
  if ltb 0 x then Finite (log10 x)
  else if ltb x 0 then NaN
  else NegInf.

(** [a < b] on such floats: false when [a] is [nan]. *)
Definition np_ltb (a : npfloat) (b : R) : bool :=
  match a with
  | Finite x => ltb x b
  | NegInf => true
  | NaN => false
  end.

(** [y[y < 10**(0.7)] = 10**(0.7)] *)
Definition apply_limit (y : list R) : list R :=
  map (fun v => if ltb v limit_of_quantification
                then limit_of_quantification else v) y.

(** ** The integrator's interface *)

Module OdeResult.
Record t : Type := mk {
  y : samples;
  status : Z;
  message : string;
  success : bool
}.
End OdeResult.

(** The right-hand side handed to the integrator. *)
Definition rhs_fn : Type := R -> list R -> result (list R).

(** [solve_ivp(fun, t_span, y0, t_eval=, method=, rtol=, atol=, step_size=)] *)
Definition integrator : Type :=
  rhs_fn -> R * R -> list R -> list R -> string ->
  option R -> option R -> option R -> result OdeResult.t.

(** ** The model object *)

Record Model : Type := mkModel {
  y0 : list R;
  solver : string;
  step_size : option R;
  tolerance : option R;
  t_treat : R;
  p_fn : string;
  limit_of_quant : bool
}.

(** [Model.__init__], with its defaults. *)
Definition default_t_treat : R := 2.775.
Definition default_p_fn : string := "Step".

Definition Model_init (y0_ : list R) (solver_ : string)
    (step_size_ tolerance_ : option R) (t_treat_ : R) (p_fn_ : string)
    (limit_of_quant_ : bool) : Model :=
  mkModel y0_ solver_ step_size_ tolerance_ t_treat_ p_fn_ limit_of_quant_.

(** A method runs on the fields of [self] and leaves the fields behind. *)
Definition method (A : Type) : Type := Model -> result A * Model.

Definition ret {A} (a : A) : method A := fun self => (Ok a, self).
Definition lift {A} (r : result A) : method A := fun self => (r, self).
Definition getattr {A} (field : Model -> A) : method A :=
  fun self => (Ok (field self), self).
Definition this : method Model := fun self => (Ok self, self).
Definition bind {A B} (m : method A) (k : A -> method B) : method B :=
  fun self =>
    match m self with
    | (Ok a, self') => k a self'
    | (Raise e, self') => (Raise e, self')
    end.

Declare Scope method_scope.
Delimit Scope method_scope with method.
Notation "x <- m ;; k" := (bind m (fun x => k))
  (at level 61, m at next level, right associativity) : method_scope.
Notation "' pat <- m ;; k" := (bind m (fun x => match x with pat => k end))
  (at level 61, pat pattern, m at next level, right associativity)
  : method_scope.

Definition set_step_size (v : option R) : method unit :=
  fun self =>
    (Ok tt, mkModel (y0 self) (solver self) v (tolerance self)
                    (t_treat self) (p_fn self) (limit_of_quant self)).

Definition set_tolerance (v : option R) : method unit :=
  fun self =>
    (Ok tt, mkModel (y0 self) (solver self) (step_size self) v
                    (t_treat self) (p_fn self) (limit_of_quant self)).

Definition n_parameters : method nat := ret 5%nat.

(** Reading a local variable that may not have been assigned.  (The
    wording of the message is CPython's up to 3.10; later versions word
    it differently and name the variable in the same way.) *)
Definition load_local (name : string) (v : option R) : result R :=
  match v with
  | Some x => Ok x
  | None => Raise (UnboundLocalError
      ("local variable '" ++ name ++ "' referenced before assignment"))
  end.

(** The closure [fun(t, y)] of [simulate]; it reads [self.p_fn] and
    [self.t_treat] and the unpacked parameters.  ([I_] is the source's
    [I].) *)
Definition simulate_fun (self : Model) (beta delta p0 c epsilon : R) : rhs_fn :=
  fun t y =>
    rbind (unpack3 y) (fun '(T, I_, V) =>
    rbind (if String.eqb (p_fn self) "Step" then
             Ok (Some (production_rate_step t (t_treat self) p0 epsilon))
           else if String.eqb (p_fn self) "Tanh" then
             let t_treat := 2.775 in
             let T_max := 1.08 / 24 in
             rbind (production_rate_tanh t t_treat T_max p0 epsilon)
                   (fun p => Ok (Some p))
           else Ok None) (fun p_local =>
    let d0 := - beta * T * V in
    let d1 := beta * T * V - delta * I_ in
    rbind (load_local "p" p_local) (fun p =>
    Ok [d0; d1; p * I_ - c * V]))).

Section Simulate.

Variable solve_ivp : integrator.

Open Scope method_scope.

Definition simulate (parameters times : list R) : method (list npfloat) :=
  ' (beta, delta, p0, c, epsilon) <- lift (unpack5 parameters) ;;
  self <- this ;;
  let fun_ := simulate_fun self beta delta p0 c epsilon in
  t_end <- lift (py_max times) ;;
  let t_range := (0, t_end) in
  y0_ <- getattr y0 ;;
  method_ <- getattr solver ;;
  rtol <- getattr tolerance ;;
  atol <- getattr tolerance ;;
  step <- getattr step_size ;;
  res <- lift (solve_ivp fun_ t_range y0_ times method_ rtol atol step) ;;
  (* y = res.y; if y.ndim >= 2: y = res.y[2] *)
  y <- lift (match OdeResult.y res with
             | NoSamples =>
                 Raise (AttributeError "'list' object has no attribute 'ndim'")
             | Samples (Arr2 rows) => getrow rows 2
             | Samples (Arr1 v) => Ok v
             end) ;;
  lq <- getattr limit_of_quant ;;
  let y := if lq then apply_limit y else y in
  ret (map np_log10 y).

End Simulate.

(** ** The test [solve_ivp] makes on the time grid

    [solve_ivp] is not part of the program; this is the test its front
    end makes on [t_eval] before it integrates
    (scipy/integrate/_ivp/ivp.py):
    [[
    if np.any(t_eval < min(t0, tf)) or np.any(t_eval > max(t0, tf)):
        raise ValueError("Values in `t_eval` are not within `t_span`.")
    d = np.diff(t_eval)
    if tf > t0 and np.any(d <= 0) or tf < t0 and np.any(d >= 0):
        raise ValueError("Values in `t_eval` are not properly sorted.")
    ]] *)

(** [np.diff] *)
Fixpoint diff (l : list R) : list R :=
  match l with
  | a :: (b :: _) as rest => (b - a) :: diff rest
  | _ => []
  end.

Definition t_eval_test (t_span : R * R) (t_eval : list R) : result unit :=
  let (t0, tf) := t_span in
  if existsb (fun t => ltb t (Rmin t0 tf)) t_eval
     || existsb (fun t => ltb (Rmax t0 tf) t) t_eval
  then Raise (ValueError "Values in `t_eval` are not within `t_span`.")
  else
    let d := diff t_eval in
    if (ltb t0 tf && existsb (fun x => leb x 0) d)
       || (ltb tf t0 && existsb (fun x => leb 0 x) d)
    then Raise (ValueError "Values in `t_eval` are not properly sorted.")
    else Ok tt.

(** ** Integrators to run the model with

    Not part of the program: small stand-ins for [solve_ivp] with the
    same front end, at which the statements below are instantiated.
    [euler_ivp] checks the method name, makes the test on the time grid,
    evaluates the right-hand side at the initial state, and samples the
    solution at the requested times (one explicit Euler step per
    interval).  An exception of the right-hand side escapes. *)

Definition METHODS : list string :=
  ["RK23"; "RK45"; "DOP853"; "Radau"; "BDF"; "LSODA"]%string.

(** [a[i] <= a[i+1]] throughout. *)
Fixpoint is_sorted (l : list R) : bool :=
  match l with
  | a :: (b :: _) as rest => leb a b && is_sorted rest
  | _ => true
  end.

(** [a[i] < a[i+1]] throughout: no [np.diff(t_eval) <= 0]. *)
Fixpoint strictly_ascending (l : list R) : bool :=
  match l with
  | a :: (b :: _) as rest => ltb a b && strictly_ascending rest
  | _ => true
  end.

Fixpoint zip_with {A B C} (g : A -> B -> C) (l : list A) (l' : list B)
  : list C :=
  match l, l' with
  | a :: l, b :: l' => g a b :: zip_with g l l'
  | _, _ => []
  end.

Definition euler_step (f : rhs_fn) (t h : R) (y : list R)
  : result (list R) :=
  rbind (f t y) (fun d => Ok (zip_with (fun yi di => yi + h * di) y d)).

Fixpoint euler_samples (f : rhs_fn) (t : R) (y : list R) (t_eval : list R)
  : result (list (list R)) :=
  match t_eval with
  | [] => Ok []
  | t' :: rest =>
      rbind (euler_step f t (t' - t) y) (fun y' =>
      rbind (euler_samples f t' y' rest) (fun ys =>
      Ok (y' :: ys)))
  end.

(** Samples, one state per time, to rows, one per component. *)
Definition components (n : nat) (samples : list (list R))
  : list (list R) :=
  map (fun i => map (fun s => nth i s 0) samples) (seq 0 n).

Definition euler_ivp : integrator :=
  fun f t_span y0 t_eval method rtol atol step =>
    if negb (existsb (String.eqb method) METHODS) then
      Raise (ValueError "`method` must be one of the known methods or OdeSolver class.")
    else
      rbind (t_eval_test t_span t_eval) (fun _ =>
      rbind (f (fst t_span) y0) (fun _ =>
      rbind (euler_samples f (fst t_span) y0 t_eval) (fun samples =>
      Ok (OdeResult.mk
            (Samples (Arr2 (components (List.length y0) samples))) 0
            "The solver successfully reached the end of the integration interval."
            true)))).





(** ** What is assumed of an integrator, where it matters *)

(** The integrator makes the test on the time grid: where the test
    raises, the call raises a [ValueError]. *)
Definition runs_t_eval_test (solve_ivp : integrator) : Prop :=
  forall f t_span y0 t_eval method rtol atol step msg,
    t_eval_test t_span t_eval = Raise (ValueError msg) ->
    exists msg',
      solve_ivp f t_span y0 t_eval method rtol atol step
      = Raise (ValueError msg').

(** Run with [method], the integrator evaluates the right-hand side at
    the initial state and does not swallow its exception. *)
Definition evaluates_rhs (solve_ivp : integrator) (method : string) : Prop :=
  forall f t_span y0 t_eval rtol atol step e,
    f (fst t_span) y0 = Raise e ->
    exists e',
      solve_ivp f t_span y0 t_eval method rtol atol step = Raise e'.


(** ** Models and inputs used in examples *)

Definition with_t_treat (m : Model) (v : R) : Model :=
  mkModel (y0 m) (solver m) (step_size m) (tolerance m) v (p_fn m)
          (limit_of_quant m).


(** The scenario of [make_figure]. *)
Definition fig_y0 : list R := [4 * 10 ^ 8; / 10 ^ 6; Rpower 10 (-3.42)].
Definition fig_params : list R := [1.81 * / 10 ^ 6; 7.07; 0.661; 14.8; 0.9738].
Definition fig_model (p_fn_ : string) (limit_of_quant_ : bool) : Model :=
  Model_init fig_y0 "RK45" None (Some (/ 10 ^ 13)) 2.775 p_fn_ limit_of_quant_.

(** ** The model with its arrays in a store

    [self.y0] and [res.y] are numpy arrays: objects that a call shares
    with its caller and that can be written in place, as
    [y[y < 10**(0.7)] = 10**(0.7)] writes into a row of [res.y].  Here
    the arrays live in a store, the field [y0] of the object and the
    field [y] of the integrator's result hold references, and the
    integrator is a function of the store as well. *)

Definition loc : Type := nat.

(** The arrays allocated so far are those at the locations below
    [heap_next]. *)
Record heap : Type := mkHeap {
  heap_next : loc;
  heap_get : loc -> ndarray
}.

Definition heap_alloc (a : ndarray) (h : heap) : loc * heap :=
  (heap_next h,
   mkHeap (S (heap_next h))
          (fun l => if Nat.eqb l (heap_next h) then a else heap_get h l)).

Definition heap_set (l : loc) (a : ndarray) (h : heap) : heap :=
  mkHeap (heap_next h)
         (fun l' => if Nat.eqb l' l then a else heap_get h l').

(** Every array of [h] is in [h'], with the values it has in [h]. *)
Definition heap_extends (h h' : heap) : Prop :=
  (heap_next h <= heap_next h')%nat
  /\ forall l, (l < heap_next h)%nat -> heap_get h' l = heap_get h l.

Record Object : Type := mkObject {
  o_y0 : loc;
  o_solver : string;
  o_step_size : option R;
  o_tolerance : option R;
  o_t_treat : R;
  o_p_fn : string;
  o_limit_of_quant : bool
}.

(** The fields of an object, with the values [v] of its array [y0]. *)
Definition snapshot (self : Object) (v : list R) : Model :=
  mkModel v (o_solver self) (o_step_size self) (o_tolerance self)
          (o_t_treat self) (o_p_fn self) (o_limit_of_quant self).

Module OdeResultObj.
Record t : Type := mk {
  y : option loc;   (* [None]: the empty list *)
  status : Z;
  message : string;
  success : bool
}.
End OdeResultObj.

Definition integrator_obj : Type :=
  rhs_fn -> R * R -> loc -> list R -> string ->
  option R -> option R -> option R -> heap ->
  result OdeResultObj.t * heap.

(** [rows[i] = row], written in place. *)
Definition set_row (rows : list (list R)) (i : nat) (row : list R)
  : list (list R) :=
  firstn i rows ++ row :: skipn (S i) rows.

(** [simulate], on the object and the store.  The closure [fun] reads
    [self.p_fn] and [self.t_treat] only. *)
Definition simulate_obj (solve_ivp : integrator_obj)
    (parameters times : list R) (self : Object) (h : heap)
  : result (list npfloat) * Object * heap :=
  match unpack5 parameters with
  | Raise e => (Raise e, self, h)
  | Ok (beta, delta, p0, c, epsilon) =>
    let fun_ := simulate_fun (snapshot self []) beta delta p0 c epsilon in
    match py_max times with
    | Raise e => (Raise e, self, h)
    | Ok t_end =>
      let t_range := (0, t_end) in
      match solve_ivp fun_ t_range (o_y0 self) times (o_solver self)
              (o_tolerance self) (o_tolerance self) (o_step_size self) h with
      | (Raise e, h1) => (Raise e, self, h1)
      | (Ok res, h1) =>
        match OdeResultObj.y res with
        | None =>
            (Raise (AttributeError "'list' object has no attribute 'ndim'"),
             self, h1)
        | Some l =>
          match heap_get h1 l with
          | Arr1 v =>
              if o_limit_of_quant self then
                let v' := apply_limit v in
                (Ok (map np_log10 v'), self, heap_set l (Arr1 v') h1)
              else (Ok (map np_log10 v), self, h1)
          | Arr2 rows =>
              match getrow rows 2 with
              | Raise e => (Raise e, self, h1)
              | Ok row =>
                  if o_limit_of_quant self then
                    let row' := apply_limit row in
                    (Ok (map np_log10 row'), self,
                     heap_set l (Arr2 (set_row rows 2 row')) h1)
                  else (Ok (map np_log10 row), self, h1)
              end
          end
        end
      end
    end
  end.

(** What is assumed of the integrator on the store: it does what the
    function [solve_ivp] says on the values of [y0] (its outcome depends
    on nothing else), it writes to no array that was there before the
    call, and the array it returns is a new one. *)
Definition well_behaved (solve_obj : integrator_obj) (solve_ivp : integrator)
  : Prop :=
  forall f t_span l t_eval method rtol atol step h v,
    (l < heap_next h)%nat ->
    heap_get h l = Arr1 v ->
    exists r h',
      solve_obj f t_span l t_eval method rtol atol step h = (r, h')
      /\ heap_extends h h'
      /\ match solve_ivp f t_span v t_eval method rtol atol step, r with
         | Raise e, Raise e' => e' = e
         | Ok res, Ok res' =>
             match OdeResult.y res, OdeResultObj.y res' with
             | NoSamples, None => True
             | Samples a, Some l' =>
                 (heap_next h <= l' < heap_next h')%nat
                 /\ heap_get h' l' = a
             | _, _ => False
             end
         | _, _ => False
         end.

(** An integrator on the store from a function: it reads [y0] and puts
    the array of the result at a new location. *)
Definition allocating (solve_ivp : integrator) : integrator_obj :=
  fun f t_span l t_eval method rtol atol step h =>
    match heap_get h l with
    | Arr2 _ => (Raise (ValueError "`y0` must be 1-dimensional."), h)
    | Arr1 v =>
        match solve_ivp f t_span v t_eval method rtol atol step with
        | Raise e => (Raise e, h)
        | Ok res =>
            match OdeResult.y res with
            | NoSamples =>
                (Ok (OdeResultObj.mk None (OdeResult.status res)
                       (OdeResult.message res) (OdeResult.success res)), h)
            | Samples a =>
                let (l', h') := heap_alloc a h in
                (Ok (OdeResultObj.mk (Some l') (OdeResult.status res)
                       (OdeResult.message res) (OdeResult.success res)), h')
            end
        end
    end.

(** An integrator on the store that hands back the array [y0] itself. *)
Definition returning_y0 : integrator_obj :=
  fun f t_span l t_eval method rtol atol step h =>
    (Ok (OdeResultObj.mk (Some l) 0 "" true), h).

Definition fig_object (p_fn_ : string) (limit_of_quant_ : bool) : Object :=
  mkObject 0%nat "RK45" None (Some (/ 10 ^ 13)) 2.775 p_fn_ limit_of_quant_.
Definition fig_heap : heap :=
  snd (heap_alloc (Arr1 fig_y0) (mkHeap 0%nat (fun _ => Arr1 []))).

(** ** Notions used in the statements *)

(** The rate the specification writes for the tanh policy. *)
Definition tanh_rate_formula (t t_treat T_max p0 epsilon : R) : R :=
  p0 - (p0 * epsilon / 2)
       * (1 + tanh ((t - (t_treat + 0.5 * T_max)) / (0.25 * T_max))).

(** The third row of a two-dimensional [res.y]; a one-dimensional one
    as it is. *)
Definition virus_load (res : OdeResult.t) : result (list R) :=
  match OdeResult.y res with
  | NoSamples => Raise (AttributeError "'list' object has no attribute 'ndim'")
  | Samples (Arr2 rows) => getrow rows 2
  | Samples (Arr1 v) => Ok v
  end.

Definition postprocess (m : Model) (y : list R) : list npfloat :=
  map np_log10 (if limit_of_quant m then apply_limit y else y).

(** The call of the integrator that [simulate] makes. *)
Definition integrate (solve_ivp : integrator) (m : Model)
    (beta delta p0 c epsilon : R) (times : list R) (t_end : R)
  : result OdeResult.t :=
  solve_ivp (simulate_fun m beta delta p0 c epsilon) (0, t_end) (y0 m)
            times (solver m) (tolerance m) (tolerance m) (step_size m).

(** The value of a call, as a function of the fields and the arguments. *)
Definition simulate_value (solve_ivp : integrator) (m : Model)
    (parameters times : list R) : result (list npfloat) :=
  rbind (unpack5 parameters) (fun '(beta, delta, p0, c, epsilon) =>
  rbind (py_max times) (fun t_end =>
  rbind (integrate solve_ivp m beta delta p0 c epsilon times t_end) (fun res =>
  rbind (virus_load res) (fun y =>
  Ok (postprocess m y))))).

(** ** Notions used in the further properties *)

Definition with_p_fn (m : Model) (v : string) : Model :=
  mkModel (y0 m) (solver m) (step_size m) (tolerance m) (t_treat m) v
          (limit_of_quant m).

Definition with_limit_of_quant (m : Model) (v : bool) : Model :=
  mkModel (y0 m) (solver m) (step_size m) (tolerance m) (t_treat m)
          (p_fn m) v.

Definition with_tolerance (m : Model) (v : option R) : Model :=
  mkModel (y0 m) (solver m) (step_size m) v (t_treat m) (p_fn m)
          (limit_of_quant m).

(** [y[y < 0.7] = 0.7], as [make_figure] applies it to what [simulate]
    returned. *)
Definition apply_log_limit (y : list npfloat) : list npfloat :=
  map (fun v => if np_ltb v 0.7 then Finite 0.7 else v) y.

(** The policy is one of the two that [simulate] knows. *)
Definition known_policy (m : Model) : Prop :=
  p_fn m = "Step"%string \/ p_fn m = "Tanh"%string.

(** * Properties *)

(** ** Comparisons *)

Lemma ltb_true (x y : R) : x < y -> ltb x y = true.
Proof. intros H. unfold ltb. destruct (Rlt_dec x y); [reflexivity | contradiction]. Qed.

Lemma ltb_false (x y : R) : y <= x -> ltb x y = false.
Proof. intros H. unfold ltb. destruct (Rlt_dec x y); [lra | reflexivity]. Qed.

Lemma leb_true (x y : R) : x <= y -> leb x y = true.
Proof. intros H. unfold leb. destruct (Rle_dec x y); [reflexivity | contradiction]. Qed.

Lemma leb_false (x y : R) : y < x -> leb x y = false.
Proof. intros H. unfold leb. destruct (Rle_dec x y); [lra | reflexivity]. Qed.

Lemma truediv_nonzero (a b : R) : b <> 0 -> truediv a b = Ok (a / b).
Proof.
  intros Hb. unfold truediv.
  destruct (Req_dec_T b 0) as [E | _]; [contradiction | reflexivity].
Qed.

Lemma truediv_zero (a : R) :
  truediv a 0 = Raise (ZeroDivisionError "float division by zero").
Proof.
  unfold truediv. destruct (Req_dec_T 0 0) as [_ | N]; [reflexivity | now destruct N].
Qed.

Lemma tanh_0 : tanh 0 = 0.
Proof. unfold tanh. rewrite sinh_0. unfold Rdiv. apply Rmult_0_l. Qed.

(** ** Production rates *)

(** C4. [production_rate_step] is [p0] before the treatment time and
    [p0 * (1 - epsilon)] from the treatment time on. *)
Theorem production_rate_step_cases (t t_treat p0 epsilon : R) :
  (t < t_treat -> production_rate_step t t_treat p0 epsilon = p0) /\
  (t >= t_treat ->
   production_rate_step t t_treat p0 epsilon = p0 * (1 - epsilon)).
Proof.
  unfold production_rate_step. split; intros H.
  - now rewrite ltb_true.
  - rewrite ltb_false; [reflexivity | lra].
Qed.

Lemma production_rate_step_cases_witness :
  production_rate_step 1 2.775 0.661 0.9738 = 0.661 /\
  production_rate_step 3 2.775 0.661 0.9738 = 0.661 * (1 - 0.9738).
Proof.
  split.
  - apply (proj1 (production_rate_step_cases 1 2.775 0.661 0.9738)). lra.
  - apply (proj2 (production_rate_step_cases 3 2.775 0.661 0.9738)). lra.
Defined.

Lemma production_rate_tanh_raises (t t_treat p0 epsilon : R) :
  production_rate_tanh t t_treat 0 p0 epsilon
  = Raise (ZeroDivisionError "float division by zero").
Proof.
  unfold production_rate_tanh.
  replace (0.25 * 0) with 0 by lra. now rewrite truediv_zero.
Qed.

(** C5, as stated, fails where [T_max = 0]: the division raises, and no
    rate is returned. *)
Lemma production_rate_tanh_zero_T_max :
  production_rate_tanh 0 0 0 1 0
  = Raise (ZeroDivisionError "float division by zero") /\
  production_rate_tanh 0 0 0 1 0 <> Ok (tanh_rate_formula 0 0 0 1 0) /\
  production_rate_tanh (0 + 0.5 * 0) 0 0 1 0 <> Ok (1 * (1 - 0 / 2)).
Proof.
  rewrite !production_rate_tanh_raises. repeat split; discriminate.
Qed.

(** C5, amended. For [T_max <> 0], [production_rate_tanh] returns
    [p0 - (p0*epsilon/2) * (1 + tanh ((t - (t_treat + 0.5*T_max)) / (0.25*T_max)))],
    and at [t = t_treat + 0.5*T_max] it returns [p0 * (1 - epsilon/2)]. *)
Theorem production_rate_tanh_formula (t t_treat T_max p0 epsilon : R) :
  T_max <> 0 ->
  production_rate_tanh t t_treat T_max p0 epsilon
  = Ok (tanh_rate_formula t t_treat T_max p0 epsilon) /\
  production_rate_tanh (t_treat + 0.5 * T_max) t_treat T_max p0 epsilon
  = Ok (p0 * (1 - epsilon / 2)).
Proof.
  intros HT. assert (Hd : 0.25 * T_max <> 0) by lra.
  unfold production_rate_tanh, tanh_rate_formula.
  rewrite !truediv_nonzero by exact Hd. cbn [rbind]. split; f_equal.
  - ring.
  - replace ((t_treat + 0.5 * T_max - (t_treat + 0.5 * T_max)) / (0.25 * T_max))
      with 0 by (field; lra).
    rewrite tanh_0. field.
Qed.

Lemma production_rate_tanh_formula_witness :
  production_rate_tanh 3 2.775 (1.08 / 24) 0.661 0.9738
  = Ok (tanh_rate_formula 3 2.775 (1.08 / 24) 0.661 0.9738) /\
  production_rate_tanh (2.775 + 0.5 * (1.08 / 24)) 2.775 (1.08 / 24) 0.661 0.9738
  = Ok (0.661 * (1 - 0.9738 / 2)).
Proof.
  apply (production_rate_tanh_formula 3 2.775 (1.08 / 24) 0.661 0.9738). lra.
Defined.

(** C6, as stated, fails where [T_max = 0]: with [epsilon = 0] the tanh
    policy still divides by [0.25 * T_max] and raises instead of
    returning [p0]. *)
Lemma untreated_tanh_zero_T_max :
  production_rate_tanh 0 0 0 1 0 <> Ok 1.
Proof. rewrite production_rate_tanh_raises. discriminate. Qed.

(** C6, amended. With [epsilon = 0], [production_rate_step] returns [p0]
    for all its arguments, and [production_rate_tanh] returns [p0] for
    all its arguments with [T_max <> 0]. *)
Theorem untreated_rate_is_p0 (t t_treat T_max p0 : R) :
  production_rate_step t t_treat p0 0 = p0 /\
  (T_max <> 0 -> production_rate_tanh t t_treat T_max p0 0 = Ok p0).
Proof.
  split.
  - unfold production_rate_step. destruct (ltb t t_treat); [reflexivity | ring].
  - intros HT. unfold production_rate_tanh.
    rewrite truediv_nonzero by lra. cbn [rbind]. f_equal. field.
Qed.

Lemma untreated_rate_is_p0_witness :
  production_rate_step 3 2.775 0.661 0 = 0.661 /\
  production_rate_tanh 3 2.775 (1.08 / 24) 0.661 0 = Ok 0.661.
Proof.
  split.
  - apply (proj1 (untreated_rate_is_p0 3 2.775 (1.08 / 24) 0.661)).
  - apply (proj2 (untreated_rate_is_p0 3 2.775 (1.08 / 24) 0.661)). lra.
Defined.

(** ** [simulate]: what a call computes and what it leaves behind *)

Lemma simulate_run (solve_ivp : integrator) (parameters times : list R)
    (m : Model) :
  simulate solve_ivp parameters times m
  = (simulate_value solve_ivp m parameters times, m).
Proof.
  unfold simulate, simulate_value, integrate, virus_load, postprocess.
  unfold bind, lift, this, getattr, ret.
  destruct (unpack5 parameters) as [[[[[beta delta] p0] c] epsilon] | e];
    cbn [rbind]; [| reflexivity].
  destruct (py_max times) as [t_end | e]; cbn [rbind]; [| reflexivity].
  destruct (solve_ivp _ _ _ _ _ _ _ _) as [res | e]; cbn [rbind];
    [| reflexivity].
  destruct (OdeResult.y res) as [[v | rows] |]; cbn [rbind];
    [reflexivity | | reflexivity].
  destruct (getrow rows 2) as [y | e]; reflexivity.
Qed.

(** The setters write one field each; nothing else does. *)
Lemma setters_write_one_field (v : option R) (m : Model) :
  snd (set_step_size v m)
  = mkModel (y0 m) (solver m) v (tolerance m) (t_treat m) (p_fn m)
            (limit_of_quant m)
  /\ snd (set_tolerance v m)
  = mkModel (y0 m) (solver m) (step_size m) v (t_treat m) (p_fn m)
            (limit_of_quant m).
Proof. split; reflexivity. Qed.

(** ** [simulate] and the arrays it shares *)

Lemma heap_extends_refl (h : heap) : heap_extends h h.
Proof. split; [lia | reflexivity]. Qed.

Lemma heap_extends_trans (h1 h2 h3 : heap) :
  heap_extends h1 h2 -> heap_extends h2 h3 -> heap_extends h1 h3.
Proof.
  intros [Hn1 Hg1] [Hn2 Hg2]. split; [lia |].
  intros l Hl. rewrite Hg2 by lia. now apply Hg1.
Qed.

(** A write into an array that [h] does not have leaves the arrays of
    [h] as they are. *)
Lemma heap_extends_set (h h' : heap) (l : loc) (a : ndarray) :
  heap_extends h h' -> (heap_next h <= l)%nat ->
  heap_extends h (heap_set l a h').
Proof.
  intros [Hn Hg] Hl. split; [exact Hn |].
  intros l0 Hl0. cbn [heap_set heap_get].
  destruct (Nat.eqb_spec l0 l) as [-> | _]; [lia | now apply Hg].
Qed.

Lemma allocating_well_behaved (solve_ivp : integrator) :
  well_behaved (allocating solve_ivp) solve_ivp.
Proof.
  intros f t_span l t_eval method rtol atol step h v Hl Hv.
  unfold allocating. rewrite Hv.
  destruct (solve_ivp f t_span v t_eval method rtol atol step) as [res | e].
  - destruct (OdeResult.y res) as [a |] eqn:Ey.
    + do 2 eexists. split; [reflexivity |]. split.
      * split; [cbn; lia |]. intros l0 Hl0. cbn.
        destruct (Nat.eqb_spec l0 (heap_next h)); [lia | reflexivity].
      * cbn. rewrite Nat.eqb_refl. split; [lia | reflexivity].
    + do 2 eexists. split; [reflexivity |].
      split; [apply heap_extends_refl | exact Logic.I].
  - do 2 eexists. split; [reflexivity |].
    split; [apply heap_extends_refl | reflexivity].
Qed.

(** One call, from a store in which [self.y0] holds the values [v]:
    the value is that of [simulate] on these values, the object is as it
    was, and so is every array that was there. *)
Lemma simulate_obj_call
    (solve_obj : integrator_obj) (solve_ivp : integrator)
    (parameters times : list R) (self : Object) (h : heap) (v : list R) :
  well_behaved solve_obj solve_ivp ->
  (o_y0 self < heap_next h)%nat ->
  heap_get h (o_y0 self) = Arr1 v ->
  exists h1,
    simulate_obj solve_obj parameters times self h
    = (fst (simulate solve_ivp parameters times (snapshot self v)), self, h1)
    /\ heap_extends h h1.
Proof.
  intros Hwb Hl Hv. rewrite simulate_run. cbn [fst].
  unfold simulate_obj, simulate_value.
  destruct (unpack5 parameters) as [[[[[beta delta] p0] c] epsilon] | e];
    cbn [rbind]; [| eexists; split; [reflexivity | apply heap_extends_refl]].
  destruct (py_max times) as [t_end | e]; cbn [rbind];
    [| eexists; split; [reflexivity | apply heap_extends_refl]].
  destruct (Hwb (simulate_fun (snapshot self []) beta delta p0 c epsilon)
              (0, t_end) (o_y0 self) times (o_solver self)
              (o_tolerance self) (o_tolerance self) (o_step_size self)
              h v Hl Hv) as [r [h' [E [Hext Hrel]]]].
  rewrite E. unfold integrate.
  change (simulate_fun (snapshot self v) beta delta p0 c epsilon)
    with (simulate_fun (snapshot self []) beta delta p0 c epsilon).
  cbn [snapshot y0 solver tolerance step_size].
  destruct (solve_ivp (simulate_fun (snapshot self []) beta delta p0 c epsilon)
              (0, t_end) v times (o_solver self) (o_tolerance self)
              (o_tolerance self) (o_step_size self)) as [res | e];
    destruct r as [res' | e']; try contradiction; cbn [rbind].
  - unfold virus_load, postprocess. cbn [limit_of_quant snapshot].
    destruct (OdeResult.y res) as [a |];
      destruct (OdeResultObj.y res') as [l' |]; try contradiction.
    + destruct Hrel as [Hfresh Ha]. rewrite Ha.
      destruct a as [w | rows].
      * cbn [rbind].
        destruct (o_limit_of_quant self);
          eexists; (split; [reflexivity |]);
          [apply heap_extends_set; [exact Hext | lia] | exact Hext].
      * destruct (getrow rows 2) as [row | e]; cbn [rbind];
          [| eexists; split; [reflexivity | exact Hext]].
        destruct (o_limit_of_quant self);
          eexists; (split; [reflexivity |]);
          [apply heap_extends_set; [exact Hext | lia] | exact Hext].
    + eexists. split; [reflexivity | exact Hext].
  - subst e'. eexists. split; [reflexivity | exact Hext].
Qed.

(** C9. With an integrator that is a function of its arguments and of the
    values of [y0], that writes to no array that was there before the
    call, and that returns a new array: a call of [simulate] leaves every
    field of the model and every array that was there before the call as
    it was
    (the in-place replacement goes into the array of the result), and a
    second call with the same arguments returns what the first
    returned. *)
Theorem simulate_obj_deterministic_and_mutation_free
    (solve_obj : integrator_obj) (solve_ivp : integrator)
    (parameters times : list R) (self : Object) (h : heap) (v : list R) :
  well_behaved solve_obj solve_ivp ->
  (o_y0 self < heap_next h)%nat ->
  heap_get h (o_y0 self) = Arr1 v ->
  exists out h1 h2,
    simulate_obj solve_obj parameters times self h = (out, self, h1)
    /\ simulate_obj solve_obj parameters times self h1 = (out, self, h2)
    /\ heap_extends h h1
    /\ heap_extends h h2
    /\ heap_get h1 (o_y0 self) = Arr1 v
    /\ heap_get h2 (o_y0 self) = Arr1 v
    /\ out = fst (simulate solve_ivp parameters times (snapshot self v)).
Proof.
  intros Hwb Hl Hv.
  destruct (simulate_obj_call solve_obj solve_ivp parameters times self h v
              Hwb Hl Hv) as [h1 [E1 Hext1]].
  assert (Hl1 : (o_y0 self < heap_next h1)%nat) by (destruct Hext1; lia).
  assert (Hv1 : heap_get h1 (o_y0 self) = Arr1 v).
  { destruct Hext1 as [_ Hg]. now rewrite Hg. }
  destruct (simulate_obj_call solve_obj solve_ivp parameters times self h1 v
              Hwb Hl1 Hv1) as [h2 [E2 Hext2]].
  pose proof (heap_extends_trans h h1 h2 Hext1 Hext2) as Hext.
  exists (fst (simulate solve_ivp parameters times (snapshot self v))), h1, h2.
  repeat split; try assumption; try reflexivity.
  - apply Hext1.
  - apply Hext1.
  - apply Hext.
  - apply Hext.
  - destruct Hext as [_ Hg]. now rewrite Hg.
Qed.

Lemma simulate_obj_deterministic_and_mutation_free_witness :
  exists out h1 h2,
    simulate_obj (allocating euler_ivp) fig_params [0; 1]
      (fig_object "Step" true) fig_heap
    = (out, fig_object "Step" true, h1)
    /\ simulate_obj (allocating euler_ivp) fig_params [0; 1]
         (fig_object "Step" true) h1
       = (out, fig_object "Step" true, h2)
    /\ heap_extends fig_heap h1
    /\ heap_extends fig_heap h2
    /\ heap_get h1 0%nat = Arr1 fig_y0
    /\ heap_get h2 0%nat = Arr1 fig_y0
    /\ out = fst (simulate euler_ivp fig_params [0; 1] (fig_model "Step" true)).
Proof.
  apply (simulate_obj_deterministic_and_mutation_free (allocating euler_ivp)
           euler_ivp fig_params [0; 1] (fig_object "Step" true) fig_heap
           fig_y0 (allocating_well_behaved euler_ivp)).
  - cbn. lia.
  - reflexivity.
Defined.

(** The assumption on the integrator is needed: were the array it
    returns the array [y0] itself, the replacement of [simulate] would
    go into the model's initial values. *)
Lemma simulate_obj_writes_shared_array :
  simulate_obj returning_y0 fig_params [0; 1] (fig_object "Step" true)
    (snd (heap_alloc (Arr1 [1; 2; 3]) (mkHeap 0%nat (fun _ => Arr1 []))))
  = (Ok (map np_log10 (apply_limit [1; 2; 3])), fig_object "Step" true,
     heap_set 0%nat (Arr1 (apply_limit [1; 2; 3]))
       (snd (heap_alloc (Arr1 [1; 2; 3]) (mkHeap 0%nat (fun _ => Arr1 []))))).
Proof.
  unfold simulate_obj, fig_params. cbn [unpack5 py_max fold_left].
  rewrite (ltb_true 0 1) by lra. reflexivity.
Qed.

(** ** Errors of [simulate] *)

Lemma unpack5_wrong_length (l : list R) :
  List.length l <> 5%nat ->
  exists msg,
    unpack5 l = Raise (ValueError msg) /\ contains "expected 5" msg = true.
Proof.
  intros H.
  destruct l as [| a [| b [| c [| d [| e [| f l]]]]]];
    try (eexists; split; [reflexivity | vm_compute; reflexivity]).
  now destruct H.
Qed.

(** C7. With a parameter sequence whose length is not 5, [simulate]
    raises a [ValueError] whose message names the expected count 5;
    [n_parameters] returns 5. *)
Theorem simulate_wrong_parameter_count
    (solve_ivp : integrator) (parameters times : list R) (m : Model) :
  List.length parameters <> 5%nat ->
  (exists msg,
     fst (simulate solve_ivp parameters times m) = Raise (ValueError msg)
     /\ contains "expected 5" msg = true)
  /\ fst (n_parameters m) = Ok 5%nat.
Proof.
  intros H. split; [| reflexivity].
  destruct (unpack5_wrong_length parameters H) as [msg [E Hmsg]].
  exists msg. split; [| exact Hmsg].
  rewrite simulate_run. cbn [fst]. unfold simulate_value.
  now rewrite E.
Qed.

Lemma simulate_wrong_parameter_count_witness :
  (exists msg,
     fst (simulate euler_ivp [1; 2; 3] [0; 1] (fig_model "Step" true))
     = Raise (ValueError msg)
     /\ contains "expected 5" msg = true)
  /\ fst (n_parameters (fig_model "Step" true)) = Ok 5%nat.
Proof.
  apply (simulate_wrong_parameter_count euler_ivp [1; 2; 3] [0; 1]
           (fig_model "Step" true)).
  cbn. lia.
Defined.

Lemma unpack_error_is_ValueError (expected got : nat) :
  exists msg, unpack_error expected got = ValueError msg.
Proof.
  unfold unpack_error. destruct (got <? expected)%nat; eexists; reflexivity.
Qed.

Lemma unpack5_raises (l : list R) (e : exn) :
  unpack5 l = Raise e -> exists msg, e = ValueError msg.
Proof.
  intros H.
  destruct (unpack_error_is_ValueError 5 (List.length l)) as [msg E].
  exists msg. rewrite <- E.
  destruct l as [| a [| b [| c [| d [| x [| f l]]]]]]; cbn in H;
    try discriminate H; now injection H as <-.
Qed.

(** *** The largest time *)

Lemma fold_max_ge (l : list R) (x : R) :
  x <= fold_left (fun m v => if ltb m v then v else m) l x /\
  Forall (fun t => t <= fold_left (fun m v => if ltb m v then v else m) l x) l.
Proof.
  revert x. induction l as [| a l IH]; intros x; cbn [fold_left].
  - split; [lra | constructor].
  - destruct (Rlt_dec x a) as [Hlt | Hge].
    + rewrite (ltb_true x a Hlt). destruct (IH a) as [H1 H2].
      split; [lra |]. constructor; assumption.
    + rewrite (ltb_false x a) by lra. destruct (IH x) as [H1 H2].
      split; [exact H1 |]. constructor; [lra | assumption].
Qed.

Lemma py_max_upper_bound (l : list R) (mx : R) :
  py_max l = Ok mx -> Forall (fun t => t <= mx) l.
Proof.
  destruct l as [| x xs]; cbn [py_max]; intros H; [discriminate H |].
  injection H as <-. destruct (fold_max_ge xs x) as [H1 H2].
  constructor; assumption.
Qed.


(** *** The test on the time grid *)

Lemma unsorted_descent (l : list R) :
  is_sorted l = false ->
  exists a b, In a l /\ In b l /\ b < a /\ In (b - a) (diff l).
Proof.
  induction l as [| a l IH]; cbn [is_sorted]; [discriminate |].
  destruct l as [| b l]; [discriminate |].
  intros H. apply andb_false_iff in H. destruct H as [H | H].
  - unfold leb in H. destruct (Rle_dec a b); [discriminate |].
    exists a, b. cbn. split; [tauto | split; [tauto | split; [lra | tauto]]].
  - destruct (IH H) as [x [z [Hx [Hz [Hlt Hd]]]]].
    exists x, z. split; [now right | split; [now right | split; [exact Hlt |]]].
    cbn [diff]. now right.
Qed.

Lemma strictly_ascending_diff (l : list R) :
  strictly_ascending l = true ->
  existsb (fun x => leb x 0) (diff l) = false.
Proof.
  induction l as [| a l IH]; cbn [strictly_ascending diff]; [reflexivity |].
  destruct l as [| b l]; [reflexivity |].
  intros H. apply andb_true_iff in H. destruct H as [Hab H].
  cbn [existsb]. rewrite (IH H), orb_false_r.
  unfold ltb in Hab. destruct (Rlt_dec a b); [| discriminate].
  apply leb_false. lra.
Qed.

(** With the interval [(0, max(t_eval))] the test lets no grid pass that
    is not in ascending order. *)
Lemma t_eval_test_rejects_unsorted (t_eval : list R) (t_end : R) :
  py_max t_eval = Ok t_end ->
  is_sorted t_eval = false ->
  exists msg, t_eval_test (0, t_end) t_eval = Raise (ValueError msg).
Proof.
  intros Hmax Hunsorted.
  destruct (unsorted_descent t_eval Hunsorted) as [a [b [Ha [Hb [Hlt Hd]]]]].
  pose proof (py_max_upper_bound t_eval t_end Hmax) as Hub.
  rewrite Forall_forall in Hub. pose proof (Hub a Ha) as Hat.
  unfold t_eval_test.
  destruct (existsb (fun t => ltb t (Rmin 0 t_end)) t_eval
            || existsb (fun t => ltb (Rmax 0 t_end) t) t_eval) eqn:Hspan;
    [eexists; reflexivity |].
  apply orb_false_iff in Hspan. destruct Hspan as [Hlow _].
  destruct (Rlt_dec 0 t_end) as [Hpos | Hneg].
  - rewrite (ltb_true 0 t_end Hpos).
    assert (E : existsb (fun x => leb x 0) (diff t_eval) = true).
    { apply existsb_exists. exists (b - a). split; [exact Hd |].
      apply leb_true. lra. }
    rewrite E. cbn [andb orb]. eexists. reflexivity.
  - exfalso.
    assert (E : existsb (fun t => ltb t (Rmin 0 t_end)) t_eval = true).
    { apply existsb_exists. exists b. split; [exact Hb |].
      apply ltb_true. unfold Rmin. destruct (Rle_dec 0 t_end); lra. }
    rewrite E in Hlow. discriminate.
Qed.

Lemma t_eval_test_ascending (t0 tf : R) (t_eval : list R) :
  t0 <= tf ->
  Forall (fun t => Rmin t0 tf <= t <= Rmax t0 tf) t_eval ->
  strictly_ascending t_eval = true ->
  t_eval_test (t0, tf) t_eval = Ok tt.
Proof.
  intros Hle Hspan Hasc. unfold t_eval_test.
  assert (E1 : existsb (fun t => ltb t (Rmin t0 tf)) t_eval = false).
  { clear Hasc.
    induction Hspan as [| t l [Ha _] _ IH]; cbn [existsb]; [reflexivity |].
    rewrite (ltb_false _ _ Ha). exact IH. }
  assert (E2 : existsb (fun t => ltb (Rmax t0 tf) t) t_eval = false).
  { clear Hasc E1.
    induction Hspan as [| t l [_ Hb] _ IH]; cbn [existsb]; [reflexivity |].
    rewrite (ltb_false _ _ Hb). exact IH. }
  rewrite E1, E2. cbn [orb].
  rewrite (strictly_ascending_diff t_eval Hasc), (ltb_false tf t0 Hle).
  rewrite andb_false_r. reflexivity.
Qed.

(** *** The stand-in integrator keeps the contract *)

Lemma euler_ivp_runs_t_eval_test : runs_t_eval_test euler_ivp.
Proof.
  intros f t_span y0 t_eval method rtol atol step msg H.
  unfold euler_ivp. destruct (negb _); [eexists; reflexivity |].
  rewrite H. eexists. reflexivity.
Qed.

Lemma euler_ivp_evaluates_rhs (method : string) :
  evaluates_rhs euler_ivp method.
Proof.
  intros f t_span y0 t_eval rtol atol step e H.
  unfold euler_ivp.
  destruct (negb _); [eexists; reflexivity |].
  destruct (t_eval_test t_span t_eval) as [[] | e0]; cbn [rbind];
    [| eexists; reflexivity].
  rewrite H. eexists. reflexivity.
Qed.

(** *** The right-hand side *)


(** With policy "Tanh" the right-hand side is built from the literals
    2.775 and 1.08/24; the field [t_treat] is not read. *)
Lemma simulate_fun_tanh (m : Model) (beta delta p0 c epsilon t : R)
    (y : list R) :
  p_fn m = "Tanh"%string ->
  simulate_fun m beta delta p0 c epsilon t y
  = rbind (unpack3 y) (fun '(T, I_, V) =>
    rbind (production_rate_tanh t 2.775 (1.08 / 24) p0 epsilon) (fun p =>
    Ok [- beta * T * V; beta * T * V - delta * I_; p * I_ - c * V])).
Proof.
  intros Hp. unfold simulate_fun. rewrite Hp. cbn [String.eqb Ascii.eqb Bool.eqb].
  destruct (unpack3 y) as [[[T I_] V] | e]; cbn [rbind]; [| reflexivity].
  destruct (production_rate_tanh t 2.775 (1.08 / 24) p0 epsilon);
    reflexivity.
Qed.

Lemma simulate_fun_step (m : Model) (beta delta p0 c epsilon t : R)
    (y : list R) :
  p_fn m = "Step"%string ->
  simulate_fun m beta delta p0 c epsilon t y
  = rbind (unpack3 y) (fun '(T, I_, V) =>
    Ok [- beta * T * V; beta * T * V - delta * I_;
        production_rate_step t (t_treat m) p0 epsilon * I_ - c * V]).
Proof.
  intros Hp. unfold simulate_fun. rewrite Hp. cbn [String.eqb Ascii.eqb Bool.eqb].
  destruct (unpack3 y) as [[[T I_] V] | e]; reflexivity.
Qed.


(** With any other policy name it returns nothing: [p] is read before
    it is assigned. *)
Lemma simulate_fun_unbound (m : Model) (beta delta p0 c epsilon t : R)
    (y : list R) :
  p_fn m <> "Step"%string -> p_fn m <> "Tanh"%string ->
  (forall T I_ V, y = [T; I_; V] ->
     simulate_fun m beta delta p0 c epsilon t y
     = Raise (UnboundLocalError
                "local variable 'p' referenced before assignment"))
  /\ is_ok (simulate_fun m beta delta p0 c epsilon t y) = false.
Proof.
  intros H1 H2. apply String.eqb_neq in H1. apply String.eqb_neq in H2.
  unfold simulate_fun. rewrite H1, H2. split.
  - intros T I_ V ->. reflexivity.
  - destruct (unpack3 y) as [[[T I_] V] | e]; reflexivity.
Qed.

(** *** The stand-in integrator returns one sample per requested time *)


Section EulerReturns.

Variable f : rhs_fn.
Variable n : nat.
Hypothesis f_returns :
  forall t y, List.length y = n ->
              exists d, f t y = Ok d /\ List.length d = n.



End EulerReturns.


(** ** The limit of quantification *)

Lemma ln_10_pos : 0 < ln 10.
Proof. rewrite <- ln_1. apply ln_increasing; lra. Qed.

Lemma limit_of_quantification_pos : 0 < limit_of_quantification.
Proof. unfold limit_of_quantification, Rpower. apply exp_pos. Qed.

Lemma log10_limit_of_quantification : log10 limit_of_quantification = 0.7.
Proof.
  unfold log10, limit_of_quantification, Rpower. rewrite ln_exp.
  pose proof ln_10_pos. field. lra.
Qed.

Lemma log10_monotone (a b : R) : 0 < a -> a <= b -> log10 a <= log10 b.
Proof.
  intros Ha Hab. unfold log10, Rdiv.
  apply Rmult_le_compat_r.
  - left. apply Rinv_0_lt_compat. exact ln_10_pos.
  - destruct Hab as [Hlt | ->]; [left; now apply ln_increasing | right; reflexivity].
Qed.

Lemma Rpower_log10 (v : R) : 0 < v -> Rpower 10 (log10 v) = v.
Proof.
  intros Hv. unfold Rpower, log10. pose proof ln_10_pos as H10.
  replace (ln v / ln 10 * ln 10) with (ln v) by (field; lra).
  now apply exp_ln.
Qed.

Lemma np_log10_positive (v : R) : 0 < v -> np_log10 v = Finite (log10 v).
Proof. intros Hv. unfold np_log10. now rewrite ltb_true. Qed.

(** One value of the load, through [y[y < 10**(0.7)] = 10**(0.7)] and
    [np.log10]. *)
Lemma np_log10_limited (v : R) :
  (v < limit_of_quantification ->
   np_log10 (if ltb v limit_of_quantification
             then limit_of_quantification else v) = Finite 0.7)
  /\ (limit_of_quantification <= v ->
      np_log10 (if ltb v limit_of_quantification
                then limit_of_quantification else v) = Finite (log10 v)
      /\ Rpower 10 (log10 v) = v /\ 0.7 <= log10 v).
Proof.
  pose proof limit_of_quantification_pos as HL. split; intros H.
  - rewrite ltb_true by exact H. rewrite np_log10_positive by exact HL.
    now rewrite log10_limit_of_quantification.
  - rewrite ltb_false by exact H.
    split; [apply np_log10_positive; lra |].
    split; [apply Rpower_log10; lra |].
    rewrite <- log10_limit_of_quantification.
    now apply log10_monotone.
Qed.





(** ** The time grid *)

(** C8. With an empty time grid [simulate] raises a [ValueError] (from
    [max(times)]).  A grid that is not in ascending order it hands to
    the integrator with the interval [(0, max(times))]; the test that
    [solve_ivp] makes on the grid lets no such grid pass with that
    interval, so with an integrator that makes the test [simulate]
    raises a [ValueError].  In neither case does it return a result. *)
Theorem simulate_rejects_bad_time_grid
    (solve_ivp : integrator) (parameters times : list R) (m : Model) :
  runs_t_eval_test solve_ivp ->
  times = [] \/ is_sorted times = false ->
  exists msg,
    fst (simulate solve_ivp parameters times m) = Raise (ValueError msg).
Proof.
  intros Hsolver Hgrid. rewrite simulate_run. cbn [fst].
  unfold simulate_value.
  destruct (unpack5 parameters) as [[[[[beta delta] p0] c] epsilon] | e]
    eqn:Eu; cbn [rbind].
  - destruct Hgrid as [-> | Hunsorted].
    + eexists. reflexivity.
    + destruct (py_max times) as [t_end | e] eqn:Emax; cbn [rbind].
      * unfold integrate.
        destruct (t_eval_test_rejects_unsorted times t_end Emax Hunsorted)
          as [msg0 Etest].
        destruct (Hsolver (simulate_fun m beta delta p0 c epsilon)
                    (0, t_end) (y0 m) times (solver m) (tolerance m)
                    (tolerance m) (step_size m) msg0 Etest) as [msg E].
        rewrite E. exists msg. reflexivity.
      * destruct times as [| t ts]; [| discriminate Emax].
        cbn in Emax. injection Emax as <-. eexists. reflexivity.
  - destruct (unpack5_raises parameters e Eu) as [msg ->].
    exists msg. reflexivity.
Qed.

Lemma simulate_rejects_bad_time_grid_witness :
  (exists msg,
     fst (simulate euler_ivp fig_params [] (fig_model "Step" true))
     = Raise (ValueError msg))
  /\ (exists msg,
     fst (simulate euler_ivp fig_params [2; 1] (fig_model "Step" true))
     = Raise (ValueError msg)).
Proof.
  split.
  - apply (simulate_rejects_bad_time_grid euler_ivp fig_params []
             (fig_model "Step" true) euler_ivp_runs_t_eval_test).
    left. reflexivity.
  - apply (simulate_rejects_bad_time_grid euler_ivp fig_params [2; 1]
             (fig_model "Step" true) euler_ivp_runs_t_eval_test).
    right. cbn. rewrite leb_false by lra. reflexivity.
Defined.

(** ** The production-rate policy *)

(** C10. With a policy name other than "Step" and "Tanh", the right-hand
    side returns for no time and no state: on a state of three components
    it raises [UnboundLocalError] for [p].  With an integrator that,
    run with the model's method, evaluates the right-hand side at the
    initial state, every call of [simulate] on such a model raises. *)
Theorem simulate_unknown_policy_fails
    (solve_ivp : integrator) (m : Model) :
  p_fn m <> "Step"%string -> p_fn m <> "Tanh"%string ->
  (forall beta delta p0 c epsilon t T I_ V,
     exists msg,
       simulate_fun m beta delta p0 c epsilon t [T; I_; V]
       = Raise (UnboundLocalError msg)
       /\ contains "'p'" msg = true)
  /\ (forall beta delta p0 c epsilon t y,
     is_ok (simulate_fun m beta delta p0 c epsilon t y) = false)
  /\ (evaluates_rhs solve_ivp (solver m) ->
      forall parameters times,
        is_ok (fst (simulate solve_ivp parameters times m)) = false).
Proof.
  intros H1 H2. split; [| split].
  - intros beta delta p0 c epsilon t T I_ V. eexists. split.
    + exact (proj1 (simulate_fun_unbound m beta delta p0 c epsilon t
                      [T; I_; V] H1 H2) T I_ V eq_refl).
    + vm_compute. reflexivity.
  - intros beta delta p0 c epsilon t y.
    apply (simulate_fun_unbound m beta delta p0 c epsilon t y H1 H2).
  - intros Hsolver parameters times. rewrite simulate_run. cbn [fst].
    unfold simulate_value.
    destruct (unpack5 parameters) as [[[[[beta delta] p0] c] epsilon] | e];
      cbn [rbind]; [| reflexivity].
    destruct (py_max times) as [t_end | e]; cbn [rbind]; [| reflexivity].
    unfold integrate.
    pose proof (proj2 (simulate_fun_unbound m beta delta p0 c epsilon 0
                         (y0 m) H1 H2)) as Hf.
    destruct (simulate_fun m beta delta p0 c epsilon 0 (y0 m)) as [d | e]
      eqn:Ef; [discriminate Hf |].
    destruct (Hsolver (simulate_fun m beta delta p0 c epsilon) (0, t_end)
                (y0 m) times (tolerance m) (tolerance m)
                (step_size m) e Ef) as [e' E].
    rewrite E. reflexivity.
Qed.

Lemma simulate_unknown_policy_fails_witness :
  (exists msg,
     simulate_fun (fig_model "Linear" true) 1 1 1 1 1 0 [1; 1; 1]
     = Raise (UnboundLocalError msg)
     /\ contains "'p'" msg = true)
  /\ is_ok (fst (simulate euler_ivp fig_params [0; 1]
                   (fig_model "Linear" true))) = false.
Proof.
  destruct (simulate_unknown_policy_fails euler_ivp (fig_model "Linear" true))
    as [Hrhs [_ Hsim]].
  - discriminate.
  - discriminate.
  - split.
    + apply Hrhs.
    + apply Hsim. apply euler_ivp_evaluates_rhs.
Defined.

(** C1. With policy "Tanh" the right-hand side built by [simulate] takes
    the production rate from [production_rate_tanh] at the literals
    [t_treat = 2.775] and [T_max = 1.08/24]; the field [t_treat] of the
    model is not read.  Two models that differ only in that field return
    the same from [simulate] on the same parameters and times. *)
Theorem simulate_tanh_ignores_t_treat
    (solve_ivp : integrator) (parameters times : list R) (m : Model)
    (t_treat' : R) :
  p_fn m = "Tanh"%string ->
  (forall beta delta p0 c epsilon t y,
     simulate_fun m beta delta p0 c epsilon t y
     = rbind (unpack3 y) (fun '(T, I_, V) =>
       rbind (production_rate_tanh t 2.775 (1.08 / 24) p0 epsilon) (fun p =>
       Ok [- beta * T * V; beta * T * V - delta * I_; p * I_ - c * V])))
  /\ fst (simulate solve_ivp parameters times (with_t_treat m t_treat'))
     = fst (simulate solve_ivp parameters times m).
Proof.
  intros Hp. split.
  - intros. now apply simulate_fun_tanh.
  - rewrite !simulate_run. cbn [fst]. unfold simulate_value.
    destruct (unpack5 parameters) as [[[[[beta delta] p0] c] epsilon] | e];
      cbn [rbind]; [| reflexivity].
    destruct (py_max times) as [t_end | e]; cbn [rbind]; [| reflexivity].
    assert (E : integrate solve_ivp (with_t_treat m t_treat') beta delta p0 c
                  epsilon times t_end
                = integrate solve_ivp m beta delta p0 c epsilon times t_end).
    { unfold integrate, simulate_fun, with_t_treat.
      cbn [y0 solver step_size tolerance p_fn t_treat limit_of_quant].
      rewrite Hp. cbn [String.eqb Ascii.eqb Bool.eqb]. reflexivity. }
    rewrite E. reflexivity.
Qed.

Lemma simulate_tanh_ignores_t_treat_witness :
  fst (simulate euler_ivp fig_params [0; 1]
         (with_t_treat (fig_model "Tanh" true) 5))
  = fst (simulate euler_ivp fig_params [0; 1] (fig_model "Tanh" true)).
Proof.
  apply (simulate_tanh_ignores_t_treat euler_ivp fig_params [0; 1]
           (fig_model "Tanh" true) 5).
  reflexivity.
Defined.

(** ** Failure of the integration *)













(** * Further properties of the code *)

(** ** The hyperbolic tangent *)

Lemma tanh_as_exp (x : R) : tanh x = 1 - 2 / (exp (2 * x) + 1).
Proof.
  unfold tanh, sinh, cosh.
  replace (2 * x) with (x + x) by ring.
  rewrite exp_plus, exp_Ropp.
  pose proof (exp_pos x) as He.
  field. repeat split; nra.
Qed.

Lemma tanh_bounds (x : R) : -1 < tanh x < 1.
Proof.
  rewrite tanh_as_exp. pose proof (exp_pos (2 * x)) as He.
  assert (H1 : 0 < / (exp (2 * x) + 1)) by (apply Rinv_0_lt_compat; lra).
  assert (H2 : / (exp (2 * x) + 1) < 1).
  { rewrite <- Rinv_1 at 2. apply Rinv_lt_contravar; lra. }
  unfold Rdiv. lra.
Qed.

Lemma tanh_increasing (x x' : R) : x < x' -> tanh x < tanh x'.
Proof.
  intros H. rewrite !tanh_as_exp.
  pose proof (exp_pos (2 * x)) as He.
  assert (Hexp : exp (2 * x) < exp (2 * x')) by (apply exp_increasing; lra).
  assert (Hinv : / (exp (2 * x') + 1) < / (exp (2 * x) + 1)).
  { apply Rinv_lt_contravar; [nra | lra]. }
  unfold Rdiv. lra.
Qed.

Lemma tanh_monotone (x x' : R) : x <= x' -> tanh x <= tanh x'.
Proof.
  intros [H | ->]; [left; now apply tanh_increasing | right; reflexivity].
Qed.

Lemma tanh_odd (x : R) : tanh (- x) = - tanh x.
Proof.
  unfold tanh, sinh, cosh. rewrite Ropp_involutive.
  pose proof (exp_pos x) as He. pose proof (exp_pos (- x)) as He'.
  field. lra.
Qed.

(** ** Further properties of the production rates *)

Ltac window_arith :=
  replace 0.5 with (1 / 2) by lra; replace 0.25 with (1 / 4) by lra;
  field; lra.

Lemma production_rate_tanh_value (t t_treat T_max p0 epsilon : R) :
  T_max <> 0 ->
  production_rate_tanh t t_treat T_max p0 epsilon
  = Ok (p0 - (p0 * epsilon / 2)
             * (1 + tanh ((t - (t_treat + 0.5 * T_max)) / (0.25 * T_max)))).
Proof.
  intros HT. unfold production_rate_tanh.
  rewrite truediv_nonzero by lra. cbn [rbind]. f_equal. ring.
Qed.

(** X1. For [p0 >= 0], [epsilon >= 0] and [T_max <> 0] the tanh rate
    lies between the fully treated rate [p0 * (1 - epsilon)] and the
    untreated rate [p0], at every time. *)
Theorem production_rate_tanh_range (t t_treat T_max p0 epsilon : R) :
  T_max <> 0 -> 0 <= p0 -> 0 <= epsilon ->
  exists p,
    production_rate_tanh t t_treat T_max p0 epsilon = Ok p
    /\ p0 * (1 - epsilon) <= p <= p0.
Proof.
  intros HT Hp He. rewrite production_rate_tanh_value by exact HT.
  eexists. split; [reflexivity |].
  pose proof (tanh_bounds ((t - (t_treat + 0.5 * T_max)) / (0.25 * T_max)))
    as Hb.
  assert (Hpe : 0 <= p0 * epsilon) by nra.
  nra.
Qed.

Lemma production_rate_tanh_range_witness :
  exists p,
    production_rate_tanh 3 2.775 (1.08 / 24) 0.661 0.9738 = Ok p
    /\ 0.661 * (1 - 0.9738) <= p <= 0.661.
Proof.
  apply (production_rate_tanh_range 3 2.775 (1.08 / 24) 0.661 0.9738); lra.
Defined.

(** X2. For [p0 >= 0], [epsilon >= 0] and [T_max > 0] the tanh rate does
    not increase with time. *)
Theorem production_rate_tanh_nonincreasing
    (t t' t_treat T_max p0 epsilon : R) :
  0 < T_max -> 0 <= p0 -> 0 <= epsilon -> t <= t' ->
  exists p p',
    production_rate_tanh t t_treat T_max p0 epsilon = Ok p
    /\ production_rate_tanh t' t_treat T_max p0 epsilon = Ok p'
    /\ p' <= p.
Proof.
  intros HT Hp He Ht. rewrite !production_rate_tanh_value by lra.
  do 2 eexists. split; [reflexivity | split; [reflexivity |]].
  assert (Harg : (t - (t_treat + 0.5 * T_max)) / (0.25 * T_max)
                 <= (t' - (t_treat + 0.5 * T_max)) / (0.25 * T_max)).
  { unfold Rdiv. apply Rmult_le_compat_r; [| lra].
    left. apply Rinv_0_lt_compat. lra. }
  apply tanh_monotone in Harg.
  assert (Hpe : 0 <= p0 * epsilon / 2) by nra.
  nra.
Qed.

Lemma production_rate_tanh_nonincreasing_witness :
  exists p p',
    production_rate_tanh 2.5 2.775 (1.08 / 24) 0.661 0.9738 = Ok p
    /\ production_rate_tanh 3 2.775 (1.08 / 24) 0.661 0.9738 = Ok p'
    /\ p' <= p.
Proof.
  apply (production_rate_tanh_nonincreasing 2.5 3 2.775 (1.08 / 24)
           0.661 0.9738); lra.
Defined.

(** X3. The tanh rate depends on the time only through its position in
    the window that starts at [t_treat] and has width [T_max]: at
    [t = t_treat + s * T_max] it is
    [p0 - (p0*epsilon/2) * (1 + tanh (4*s - 2))], whatever [T_max <> 0]. *)
Theorem production_rate_tanh_window (s t_treat T_max p0 epsilon : R) :
  T_max <> 0 ->
  production_rate_tanh (t_treat + s * T_max) t_treat T_max p0 epsilon
  = Ok (p0 - (p0 * epsilon / 2) * (1 + tanh (4 * s - 2))).
Proof.
  intros HT. rewrite production_rate_tanh_value by exact HT.
  replace ((t_treat + s * T_max - (t_treat + 0.5 * T_max)) / (0.25 * T_max))
    with (4 * s - 2) by window_arith.
  reflexivity.
Qed.

Lemma production_rate_tanh_window_witness :
  production_rate_tanh (2.775 + 1 * (1.08 / 24)) 2.775 (1.08 / 24) 0.661 0.9738
  = Ok (0.661 - (0.661 * 0.9738 / 2) * (1 + tanh (4 * 1 - 2))).
Proof.
  apply (production_rate_tanh_window 1 2.775 (1.08 / 24) 0.661 0.9738). lra.
Defined.

(** X4. The tanh rate is symmetric about the midpoint
    [t_treat + 0.5 * T_max]: the rates at equal distances before and
    after it add up to [p0 + p0 * (1 - epsilon)]. *)
Theorem production_rate_tanh_symmetric (d t_treat T_max p0 epsilon : R) :
  T_max <> 0 ->
  exists p p',
    production_rate_tanh (t_treat + 0.5 * T_max - d) t_treat T_max p0 epsilon
    = Ok p
    /\ production_rate_tanh (t_treat + 0.5 * T_max + d) t_treat T_max p0
         epsilon = Ok p'
    /\ p + p' = p0 + p0 * (1 - epsilon).
Proof.
  intros HT. rewrite !production_rate_tanh_value by exact HT.
  do 2 eexists. split; [reflexivity | split; [reflexivity |]].
  replace ((t_treat + 0.5 * T_max - d - (t_treat + 0.5 * T_max))
           / (0.25 * T_max))
    with (- (d / (0.25 * T_max))) by window_arith.
  replace ((t_treat + 0.5 * T_max + d - (t_treat + 0.5 * T_max))
           / (0.25 * T_max))
    with (d / (0.25 * T_max)) by window_arith.
  rewrite tanh_odd. field.
Qed.

Lemma production_rate_tanh_symmetric_witness :
  exists p p',
    production_rate_tanh (2.775 + 0.5 * (1.08 / 24) - 1) 2.775 (1.08 / 24)
      0.661 0.9738 = Ok p
    /\ production_rate_tanh (2.775 + 0.5 * (1.08 / 24) + 1) 2.775 (1.08 / 24)
         0.661 0.9738 = Ok p'
    /\ p + p' = 0.661 + 0.661 * (1 - 0.9738).
Proof.
  apply (production_rate_tanh_symmetric 1 2.775 (1.08 / 24) 0.661 0.9738).
  lra.
Defined.

(** X6. For [p0 >= 0] and [epsilon >= 0] the step rate does not increase
    with time, whatever the treatment time. *)
Theorem production_rate_step_nonincreasing (t t' t_treat p0 epsilon : R) :
  0 <= p0 -> 0 <= epsilon -> t <= t' ->
  production_rate_step t' t_treat p0 epsilon
  <= production_rate_step t t_treat p0 epsilon.
Proof.
  intros Hp He Ht. unfold production_rate_step, ltb.
  destruct (Rlt_dec t' t_treat), (Rlt_dec t t_treat); nra.
Qed.

Lemma production_rate_step_nonincreasing_witness :
  production_rate_step 3 2.775 0.661 0.9738
  <= production_rate_step 1 2.775 0.661 0.9738.
Proof.
  apply (production_rate_step_nonincreasing 1 3 2.775 0.661 0.9738); lra.
Defined.

(** ** Further properties of the right-hand side *)

Lemma simulate_fun_known (m : Model) (beta delta p0 c epsilon t T I_ V : R) :
  known_policy m ->
  exists p,
    simulate_fun m beta delta p0 c epsilon t [T; I_; V]
    = Ok [- beta * T * V; beta * T * V - delta * I_; p * I_ - c * V]
    /\ (p = production_rate_step t (t_treat m) p0 epsilon
        \/ production_rate_tanh t 2.775 (1.08 / 24) p0 epsilon = Ok p).
Proof.
  intros [Hp | Hp].
  - rewrite simulate_fun_step by exact Hp. cbn [unpack3 rbind].
    eexists. split; [reflexivity | left; reflexivity].
  - rewrite simulate_fun_tanh by exact Hp. cbn [unpack3 rbind].
    assert (HT : 1.08 / 24 <> 0) by lra.
    rewrite (production_rate_tanh_value t 2.775 (1.08 / 24) p0 epsilon HT).
    cbn [rbind]. eexists. split; [reflexivity | right; reflexivity].
Qed.

(** X7. With a known policy the right-hand side returns, on every state
    of three components and at every time,
    [[-beta*T*V; beta*T*V - delta*I; dV]]; for [p0 >= 0], [epsilon >= 0]
    and [I >= 0] the virus derivative [dV] lies between the fully treated
    [p0*(1-epsilon)*I - c*V] and the untreated [p0*I - c*V]. *)
Theorem simulate_fun_virus_derivative
    (m : Model) (beta delta p0 c epsilon t T I_ V : R) :
  known_policy m -> 0 <= p0 -> 0 <= epsilon -> 0 <= I_ ->
  exists dV,
    simulate_fun m beta delta p0 c epsilon t [T; I_; V]
    = Ok [- beta * T * V; beta * T * V - delta * I_; dV]
    /\ p0 * (1 - epsilon) * I_ - c * V <= dV <= p0 * I_ - c * V.
Proof.
  intros Hm Hp He HI.
  destruct (simulate_fun_known m beta delta p0 c epsilon t T I_ V Hm)
    as [p [E Hrate]].
  exists (p * I_ - c * V). split; [exact E |].
  assert (Hrange : p0 * (1 - epsilon) <= p <= p0).
  { destruct Hrate as [-> | Ht].
    - unfold production_rate_step. destruct (ltb t (t_treat m)); nra.
    - assert (HT : 1.08 / 24 <> 0) by lra.
      rewrite (production_rate_tanh_value t 2.775 (1.08 / 24) p0 epsilon HT)
        in Ht.
      injection Ht as <-.
      pose proof (tanh_bounds
                    ((t - (2.775 + 0.5 * (1.08 / 24))) / (0.25 * (1.08 / 24))))
        as Hb.
      assert (Hpe : 0 <= p0 * epsilon) by nra.
      nra. }
  nra.
Qed.

Lemma simulate_fun_virus_derivative_witness :
  exists dV,
    simulate_fun (fig_model "Tanh" true) (1.81 * / 10 ^ 6) 7.07 0.661 14.8
      0.9738 3 [4 * 10 ^ 8; 1; 2]
    = Ok [- (1.81 * / 10 ^ 6) * (4 * 10 ^ 8) * 2;
          (1.81 * / 10 ^ 6) * (4 * 10 ^ 8) * 2 - 7.07 * 1; dV]
    /\ 0.661 * (1 - 0.9738) * 1 - 14.8 * 2 <= dV <= 0.661 * 1 - 14.8 * 2.
Proof.
  apply (simulate_fun_virus_derivative (fig_model "Tanh" true)
           (1.81 * / 10 ^ 6) 7.07 0.661 14.8 0.9738 3 (4 * 10 ^ 8) 1 2);
    [right; reflexivity | lra | lra | lra].
Defined.

(** X8. With a known policy the state without infected cells and without
    virus is at rest: at [[T; 0; 0]] the right-hand side is
    [[0; 0; 0]], for every time and every parameter. *)
Theorem simulate_fun_infection_free
    (m : Model) (beta delta p0 c epsilon t T : R) :
  known_policy m ->
  simulate_fun m beta delta p0 c epsilon t [T; 0; 0] = Ok [0; 0; 0].
Proof.
  intros Hm.
  destruct (simulate_fun_known m beta delta p0 c epsilon t T 0 0 Hm)
    as [p [E _]].
  rewrite E. f_equal. f_equal; [ring | f_equal; [ring | f_equal; ring]].
Qed.

Lemma simulate_fun_infection_free_witness :
  simulate_fun (fig_model "Step" true) (1.81 * / 10 ^ 6) 7.07 0.661 14.8
    0.9738 3 [4 * 10 ^ 8; 0; 0] = Ok [0; 0; 0].
Proof.
  apply (simulate_fun_infection_free (fig_model "Step" true)).
  left. reflexivity.
Defined.

(** X9. On a state that does not have three components the right-hand
    side raises a [ValueError] that names the expected count 3, whatever
    the policy: the state is unpacked before the policy is looked at. *)
Theorem simulate_fun_wrong_state_length
    (m : Model) (beta delta p0 c epsilon t : R) (y : list R) :
  List.length y <> 3%nat ->
  exists msg,
    simulate_fun m beta delta p0 c epsilon t y = Raise (ValueError msg)
    /\ contains "expected 3" msg = true.
Proof.
  intros H. unfold simulate_fun.
  destruct y as [| a [| b [| d [| x y]]]];
    try (eexists; split; [reflexivity | vm_compute; reflexivity]).
  now destruct H.
Qed.

Lemma simulate_fun_wrong_state_length_witness :
  exists msg,
    simulate_fun (fig_model "Linear" true) 1 1 1 1 1 0 [1; 2]
    = Raise (ValueError msg)
    /\ contains "expected 3" msg = true.
Proof.
  apply (simulate_fun_wrong_state_length (fig_model "Linear" true)
           1 1 1 1 1 0 [1; 2]).
  cbn. lia.
Defined.

(** X10. With policy "Step" the treatment time of the model does matter:
    at a time from the model's [t_treat] on, moving [t_treat] to a later
    time raises the virus derivative by [p0 * epsilon * I] and leaves the
    other two components. *)
Theorem simulate_fun_step_reads_t_treat
    (m : Model) (later beta delta p0 c epsilon t T I_ V : R) :
  p_fn m = "Step"%string -> t_treat m <= t -> t < later ->
  exists dT dI dV,
    simulate_fun m beta delta p0 c epsilon t [T; I_; V] = Ok [dT; dI; dV]
    /\ simulate_fun (with_t_treat m later) beta delta p0 c epsilon t
         [T; I_; V]
       = Ok [dT; dI; dV + p0 * epsilon * I_].
Proof.
  intros Hp Hge Hlt.
  rewrite !simulate_fun_step by exact Hp. cbn [unpack3 rbind t_treat with_t_treat].
  unfold production_rate_step.
  rewrite (ltb_false t (t_treat m)) by lra. rewrite (ltb_true t later) by lra.
  do 3 eexists. split; [reflexivity |]. do 4 f_equal. ring.
Qed.

Lemma simulate_fun_step_reads_t_treat_witness :
  exists dT dI dV,
    simulate_fun (fig_model "Step" true) 1 1 0.661 1 0.9738 3 [1; 1; 1]
    = Ok [dT; dI; dV]
    /\ simulate_fun (with_t_treat (fig_model "Step" true) 5) 1 1 0.661 1
         0.9738 3 [1; 1; 1]
       = Ok [dT; dI; dV + 0.661 * 0.9738 * 1].
Proof.
  apply (simulate_fun_step_reads_t_treat (fig_model "Step" true) 5
           1 1 0.661 1 0.9738 3 1 1 1); [reflexivity | cbn; lra | lra].
Defined.

(** X11. With a known policy the right-hand side returns a derivative of
    three components on every state of three components, at every time
    and for every parameter: inside [simulate] neither policy raises (the
    tanh policy is called with [T_max = 1.08/24]). *)
Theorem simulate_fun_known_policy_returns
    (m : Model) (beta delta p0 c epsilon t : R) (y : list R) :
  known_policy m -> List.length y = 3%nat ->
  exists d,
    simulate_fun m beta delta p0 c epsilon t y = Ok d
    /\ List.length d = 3%nat.
Proof.
  intros Hm Hy.
  destruct y as [| T [| I_ [| V [| x y]]]]; try discriminate Hy.
  destruct (simulate_fun_known m beta delta p0 c epsilon t T I_ V Hm)
    as [p [E _]].
  rewrite E. eexists. split; reflexivity.
Qed.

Lemma simulate_fun_known_policy_returns_witness :
  exists d,
    simulate_fun (fig_model "Tanh" true) 1 1 1 1 1 0 [1; 2; 3] = Ok d
    /\ List.length d = 3%nat.
Proof.
  apply (simulate_fun_known_policy_returns (fig_model "Tanh" true)
           1 1 1 1 1 0 [1; 2; 3]); [right; reflexivity | reflexivity].
Defined.

(** ** Further properties of [simulate] *)

(** *** No treatment effect *)

Lemma simulate_fun_untreated (m : Model) (beta delta p0 c : R) :
  known_policy m ->
  simulate_fun m beta delta p0 c 0
  = fun t y =>
      rbind (unpack3 y) (fun '(T, I_, V) =>
      Ok [- beta * T * V; beta * T * V - delta * I_; p0 * I_ - c * V]).
Proof.
  intros Hm.
  apply FunctionalExtensionality.functional_extensionality. intros t.
  apply FunctionalExtensionality.functional_extensionality. intros y.
  destruct y as [| T [| I_ [| V [| x y]]]]; try reflexivity.
  destruct (simulate_fun_known m beta delta p0 c 0 t T I_ V Hm)
    as [p [E Hrate]].
  rewrite E. cbn [unpack3 rbind].
  assert (Hp : p = p0).
  { destruct Hrate as [-> | Ht].
    - unfold production_rate_step. destruct (ltb t (t_treat m)); ring.
    - assert (HT : 1.08 / 24 <> 0) by lra.
      rewrite (production_rate_tanh_value t 2.775 (1.08 / 24) p0 0 HT) in Ht.
      injection Ht as <-. field. }
  now rewrite Hp.
Qed.

(** X12. With [epsilon = 0], what [simulate] returns depends neither on
    which of the two known policies the model has nor on its treatment
    time. *)
Theorem simulate_untreated_ignores_policy
    (solve_ivp : integrator) (beta delta p0 c : R) (times : list R)
    (m : Model) (policy : string) (t_treat' : R) :
  known_policy m ->
  policy = "Step"%string \/ policy = "Tanh"%string ->
  fst (simulate solve_ivp [beta; delta; p0; c; 0] times
         (with_p_fn (with_t_treat m t_treat') policy))
  = fst (simulate solve_ivp [beta; delta; p0; c; 0] times m).
Proof.
  intros Hm Hpolicy. rewrite !simulate_run. cbn [fst].
  unfold simulate_value. cbn [unpack5 rbind].
  destruct (py_max times) as [t_end | e]; cbn [rbind]; [| reflexivity].
  unfold integrate.
  rewrite (simulate_fun_untreated m beta delta p0 c Hm).
  rewrite (simulate_fun_untreated (with_p_fn (with_t_treat m t_treat') policy)
             beta delta p0 c Hpolicy).
  reflexivity.
Qed.

Lemma simulate_untreated_ignores_policy_witness :
  fst (simulate euler_ivp [1.81 * / 10 ^ 6; 7.07; 0.661; 14.8; 0] [0; 1]
         (with_p_fn (with_t_treat (fig_model "Step" true) 5) "Tanh"))
  = fst (simulate euler_ivp [1.81 * / 10 ^ 6; 7.07; 0.661; 14.8; 0] [0; 1]
           (fig_model "Step" true)).
Proof.
  apply (simulate_untreated_ignores_policy euler_ivp (1.81 * / 10 ^ 6) 7.07
           0.661 14.8 [0; 1] (fig_model "Step" true) "Tanh" 5);
    [left; reflexivity | right; reflexivity].
Defined.

(** *** The limit of quantification, before and after the logarithm *)

Lemma log10_increasing (a b : R) : 0 < a -> a < b -> log10 a < log10 b.
Proof.
  intros Ha Hab. unfold log10, Rdiv. apply Rmult_lt_compat_r.
  - apply Rinv_0_lt_compat. exact ln_10_pos.
  - now apply ln_increasing.
Qed.

Lemma log10_below_limit (v : R) :
  0 < v -> (log10 v < 0.7 <-> v < limit_of_quantification).
Proof.
  intros Hv. rewrite <- log10_limit_of_quantification. split; intros H.
  - destruct (Rlt_dec v limit_of_quantification) as [Hlt | Hge];
      [exact Hlt |].
    assert (Hle : limit_of_quantification <= v) by lra.
    pose proof (log10_monotone _ _ limit_of_quantification_pos Hle). lra.
  - now apply log10_increasing.
Qed.

Lemma log10_apply_limit_positive (y : list R) :
  Forall (fun v => 0 < v) y ->
  map np_log10 (apply_limit y) = apply_log_limit (map np_log10 y).
Proof.
  unfold apply_limit, apply_log_limit. induction 1 as [| v y Hv _ IH];
    cbn [map]; [reflexivity |].
  rewrite IH. f_equal. rewrite (np_log10_positive v Hv). cbn [np_ltb].
  destruct (np_log10_limited v) as [Hlow Hhigh].
  destruct (Rlt_dec v limit_of_quantification) as [Hlt | Hge].
  - rewrite (Hlow Hlt).
    now rewrite (ltb_true (log10 v) 0.7) by now apply log10_below_limit.
  - assert (Hle : limit_of_quantification <= v) by lra.
    destruct (Hhigh Hle) as [E [_ Hw]]. rewrite E.
    now rewrite (ltb_false (log10 v) 0.7) by exact Hw.
Qed.

Lemma integrate_with_limit_of_quant
    (solve_ivp : integrator) (m : Model) (lq : bool)
    (beta delta p0 c epsilon : R) (times : list R) (t_end : R) :
  integrate solve_ivp (with_limit_of_quant m lq) beta delta p0 c epsilon
    times t_end
  = integrate solve_ivp m beta delta p0 c epsilon times t_end.
Proof. reflexivity. Qed.

(** X13. When the virus loads the integrator returns are all positive,
    [simulate] with the limit of quantification is [simulate] without
    it followed by [y[y < 0.7] = 0.7]: replacing below [10**0.7] before
    the logarithm and replacing below 0.7 after it give the same. *)
Theorem simulate_limit_before_or_after_log
    (solve_ivp : integrator) (m : Model) (beta delta p0 c epsilon : R)
    (times : list R) (t_end : R) (res : OdeResult.t) (y : list R) :
  py_max times = Ok t_end ->
  integrate solve_ivp m beta delta p0 c epsilon times t_end = Ok res ->
  virus_load res = Ok y ->
  Forall (fun v => 0 < v) y ->
  exists out,
    fst (simulate solve_ivp [beta; delta; p0; c; epsilon] times
           (with_limit_of_quant m false)) = Ok out
    /\ fst (simulate solve_ivp [beta; delta; p0; c; epsilon] times
              (with_limit_of_quant m true)) = Ok (apply_log_limit out).
Proof.
  intros Hmax Hint Hy Hpos. exists (map np_log10 y).
  rewrite !simulate_run. cbn [fst]. unfold simulate_value.
  cbn [unpack5 rbind]. rewrite Hmax. cbn [rbind].
  rewrite !integrate_with_limit_of_quant, Hint. cbn [rbind].
  rewrite Hy. cbn [rbind]. unfold postprocess.
  cbn [limit_of_quant with_limit_of_quant].
  split; [reflexivity |]. now rewrite log10_apply_limit_positive.
Qed.

Lemma euler_first_sample (m : Model) (beta delta p0 c epsilon : R)
    (T I_ V : R) :
  p_fn m = "Step"%string -> y0 m = [T; I_; V] -> In (solver m) METHODS ->
  exists res dV,
    integrate euler_ivp m beta delta p0 c epsilon [0] 0 = Ok res
    /\ virus_load res = Ok [V + (0 - 0) * dV].
Proof.
  intros Hp Hy Hm. unfold integrate, euler_ivp.
  assert (E1 : existsb (String.eqb (solver m)) METHODS = true).
  { apply existsb_exists. exists (solver m). split; [exact Hm |].
    apply String.eqb_refl. }
  rewrite E1. cbn [negb].
  rewrite (t_eval_test_ascending 0 0 [0]);
    [| lra
     | unfold Rmin, Rmax; destruct (Rle_dec 0 0); repeat constructor; lra
     | reflexivity].
  cbn [rbind fst euler_samples]. unfold euler_step.
  rewrite Hy, !simulate_fun_step by exact Hp.
  cbn [unpack3 rbind zip_with List.length components seq map nth].
  do 2 eexists. split; [reflexivity |].
  unfold virus_load. cbn [OdeResult.y getrow nth_error]. reflexivity.
Qed.

Lemma fig_V0_positive (dV : R) : 0 < Rpower 10 (-3.42) + (0 - 0) * dV.
Proof.
  replace (Rpower 10 (-3.42) + (0 - 0) * dV) with (Rpower 10 (-3.42)) by ring.
  unfold Rpower. apply exp_pos.
Qed.

Lemma fig_V0_below_limit (dV : R) :
  Rpower 10 (-3.42) + (0 - 0) * dV < limit_of_quantification.
Proof.
  replace (Rpower 10 (-3.42) + (0 - 0) * dV) with (Rpower 10 (-3.42)) by ring.
  unfold limit_of_quantification. apply Rpower_lt; lra.
Qed.

Lemma simulate_limit_before_or_after_log_witness :
  exists out,
    fst (simulate euler_ivp fig_params [0]
           (with_limit_of_quant (fig_model "Step" true) false)) = Ok out
    /\ fst (simulate euler_ivp fig_params [0]
              (with_limit_of_quant (fig_model "Step" true) true))
       = Ok (apply_log_limit out).
Proof.
  destruct (euler_first_sample (fig_model "Step" true)
              (1.81 * / 10 ^ 6) 7.07 0.661 14.8 0.9738
              (4 * 10 ^ 8) (/ 10 ^ 6) (Rpower 10 (-3.42)))
    as [res [dV [E Ey]]]; [reflexivity | reflexivity | cbn; tauto |].
  apply (simulate_limit_before_or_after_log euler_ivp (fig_model "Step" true)
           (1.81 * / 10 ^ 6) 7.07 0.661 14.8 0.9738 [0] 0 res
           [Rpower 10 (-3.42) + (0 - 0) * dV] eq_refl E Ey).
  constructor; [apply fig_V0_positive | constructor].
Defined.

(** X14. A positive virus load below [10**0.7] is returned as exactly 0.7
    by a model with the limit of quantification and as its logarithm, a
    value below 0.7, by a model without. *)
Theorem simulate_load_below_limit
    (solve_ivp : integrator) (m : Model) (beta delta p0 c epsilon : R)
    (times : list R) (t_end : R) (res : OdeResult.t) (y : list R)
    (i : nat) (v : R) :
  py_max times = Ok t_end ->
  integrate solve_ivp m beta delta p0 c epsilon times t_end = Ok res ->
  virus_load res = Ok y ->
  nth_error y i = Some v ->
  0 < v -> v < Rpower 10 0.7 ->
  exists out_on out_off,
    fst (simulate solve_ivp [beta; delta; p0; c; epsilon] times
           (with_limit_of_quant m true)) = Ok out_on
    /\ fst (simulate solve_ivp [beta; delta; p0; c; epsilon] times
              (with_limit_of_quant m false)) = Ok out_off
    /\ nth_error out_on i = Some (Finite 0.7)
    /\ nth_error out_off i = Some (Finite (log10 v))
    /\ log10 v < 0.7.
Proof.
  intros Hmax Hint Hy Hi Hpos Hlow.
  exists (map np_log10 (apply_limit y)), (map np_log10 y).
  rewrite !simulate_run. cbn [fst]. unfold simulate_value.
  cbn [unpack5 rbind]. rewrite Hmax. cbn [rbind].
  rewrite !integrate_with_limit_of_quant, Hint. cbn [rbind].
  rewrite Hy. cbn [rbind]. unfold postprocess.
  cbn [limit_of_quant with_limit_of_quant].
  split; [reflexivity | split; [reflexivity |]].
  split; [| split].
  - unfold apply_limit.
    rewrite nth_error_map, nth_error_map, Hi. cbn [option_map].
    fold limit_of_quantification in Hlow.
    now rewrite (proj1 (np_log10_limited v) Hlow).
  - rewrite nth_error_map, Hi. cbn [option_map].
    now rewrite (np_log10_positive v Hpos).
  - now apply log10_below_limit.
Qed.

Lemma simulate_load_below_limit_witness :
  exists out_on out_off v,
    fst (simulate euler_ivp fig_params [0]
           (with_limit_of_quant (fig_model "Step" true) true)) = Ok out_on
    /\ fst (simulate euler_ivp fig_params [0]
              (with_limit_of_quant (fig_model "Step" true) false))
       = Ok out_off
    /\ nth_error out_on 0 = Some (Finite 0.7)
    /\ nth_error out_off 0 = Some (Finite (log10 v))
    /\ log10 v < 0.7.
Proof.
  destruct (euler_first_sample (fig_model "Step" true)
              (1.81 * / 10 ^ 6) 7.07 0.661 14.8 0.9738
              (4 * 10 ^ 8) (/ 10 ^ 6) (Rpower 10 (-3.42)))
    as [res [dV [E Ey]]]; [reflexivity | reflexivity | cbn; tauto |].
  destruct (simulate_load_below_limit euler_ivp (fig_model "Step" true)
              (1.81 * / 10 ^ 6) 7.07 0.661 14.8 0.9738 [0] 0 res
              [Rpower 10 (-3.42) + (0 - 0) * dV] 0
              (Rpower 10 (-3.42) + (0 - 0) * dV) eq_refl E Ey eq_refl
              (fig_V0_positive dV) (fig_V0_below_limit dV))
    as [out_on [out_off H]].
  exists out_on, out_off, (Rpower 10 (-3.42) + (0 - 0) * dV). exact H.
Defined.

(** ** The setters and [simulate] *)

(** X16. After [set_tolerance(v)], [simulate] calls the integrator with
    [rtol = v] and [atol = v] (and the right-hand side, interval, initial
    values, times, method and step size of the model as they were), and
    returns the processed third row of what that call returns; the model
    is left with [tolerance = v]. *)
Theorem set_tolerance_then_simulate
    (solve_ivp : integrator) (beta delta p0 c epsilon : R)
    (times : list R) (m : Model) (v : option R) :
  bind (set_tolerance v)
       (fun _ => simulate solve_ivp [beta; delta; p0; c; epsilon] times) m
  = (rbind (py_max times) (fun t_end =>
     rbind (solve_ivp (simulate_fun m beta delta p0 c epsilon) (0, t_end)
              (y0 m) times (solver m) v v (step_size m)) (fun res =>
     rbind (virus_load res) (fun y =>
     Ok (map np_log10 (if limit_of_quant m then apply_limit y else y))))),
     with_tolerance m v).
Proof.
  unfold bind, set_tolerance. rewrite simulate_run.
  unfold simulate_value, integrate, postprocess, with_tolerance.
  reflexivity.
Qed.

(** X17. The two setters never raise, write different fields and so
    commute; of two calls of the same setter the second wins; setting a
    field to the value it has changes nothing. *)
Theorem setters_compose (m : Model) (a b : option R) :
  fst (set_tolerance a m) = Ok tt
  /\ fst (set_step_size a m) = Ok tt
  /\ snd (bind (set_tolerance a) (fun _ => set_step_size b) m)
     = snd (bind (set_step_size b) (fun _ => set_tolerance a) m)
  /\ snd (bind (set_tolerance a) (fun _ => set_tolerance b) m)
     = snd (set_tolerance b m)
  /\ snd (bind (set_step_size a) (fun _ => set_step_size b) m)
     = snd (set_step_size b m)
  /\ snd (set_tolerance (tolerance m) m) = m
  /\ snd (set_step_size (step_size m) m) = m.
Proof.
  destruct m as [y s st tol tt p lq].
  unfold bind, set_tolerance, set_step_size. cbn. repeat split.
Qed.

(** ** The integration interval *)

Lemma fold_max_member (l : list R) (x : R) :
  In (fold_left (fun m v => if ltb m v then v else m) l x) (x :: l).
Proof.
  revert x. induction l as [| a l IH]; intros x; cbn [fold_left].
  - left. reflexivity.
  - destruct (ltb x a).
    + right. apply IH.
    + destruct (IH x) as [H | H]; [left; exact H | right; right; exact H].
Qed.

(** X18. For a time grid that is not empty, the end of the integration
    interval [(0, max(times))] is one of the requested times and no
    requested time lies after it; the interval holds every requested time
    exactly when none is negative. *)
Theorem integration_interval (times : list R) :
  times <> [] ->
  exists t_end,
    py_max times = Ok t_end
    /\ In t_end times
    /\ Forall (fun t => t <= t_end) times
    /\ (Forall (fun t => 0 <= t <= t_end) times
        <-> Forall (fun t => 0 <= t) times).
Proof.
  intros Hne. destruct times as [| x xs]; [now destruct Hne |].
  eexists. split; [reflexivity |].
  pose proof (fold_max_member xs x) as Hin.
  pose proof (py_max_upper_bound (x :: xs) _ eq_refl) as Hub.
  split; [exact Hin | split; [exact Hub |]].
  rewrite !Forall_forall in *. split; intros H t Ht.
  - apply (H t Ht).
  - split; [apply (H t Ht) | apply (Hub t Ht)].
Qed.

Lemma integration_interval_witness :
  exists t_end,
    py_max [0; 1] = Ok t_end
    /\ In t_end [0; 1]
    /\ Forall (fun t => t <= t_end) [0; 1]
    /\ (Forall (fun t => 0 <= t <= t_end) [0; 1]
        <-> Forall (fun t => 0 <= t) [0; 1]).
Proof.
  apply (integration_interval [0; 1]). discriminate.
Defined.

(** ** Continuity of the production rates in time *)

Lemma cosh_pos (x : R) : 0 < cosh x.
Proof.
  unfold cosh. pose proof (exp_pos x). pose proof (exp_pos (- x)). lra.
Qed.

Lemma continuity_tanh : continuity tanh.
Proof.
  unfold tanh. intros x. apply (continuity_pt_div sinh cosh x).
  - apply derivable_continuous_pt. apply derivable_pt_sinh.
  - apply derivable_continuous_pt. apply derivable_pt_cosh.
  - pose proof (cosh_pos x). lra.
Qed.

Lemma continuity_tanh_rate (p0 k mid w : R) :
  continuity (fun t => p0 - k * (1 + tanh ((t - mid) / w))).
Proof.
  assert (Harg : continuity (fun t => (t - mid) / w)) by (unfold Rdiv; reg).
  intros t.
  apply (continuity_pt_minus (fun _ => p0)
           (fun t => k * (1 + tanh ((t - mid) / w)))).
  { apply continuity_pt_const. intros a b. reflexivity. }
  apply (continuity_pt_mult (fun _ => k) (fun t => 1 + tanh ((t - mid) / w))).
  { apply continuity_pt_const. intros a b. reflexivity. }
  apply (continuity_pt_plus (fun _ => 1) (fun t => tanh ((t - mid) / w))).
  { apply continuity_pt_const. intros a b. reflexivity. }
  apply (continuity_pt_comp (fun t => (t - mid) / w) tanh).
  - apply Harg.
  - apply continuity_tanh.
Qed.

(** X19. For [T_max <> 0] the tanh rate is a continuous function of the
    time. *)
Theorem production_rate_tanh_continuous (t_treat T_max p0 epsilon : R) :
  T_max <> 0 ->
  exists rate : R -> R,
    continuity rate
    /\ forall t,
         production_rate_tanh t t_treat T_max p0 epsilon = Ok (rate t).
Proof.
  intros HT.
  exists (fun t => p0 - (p0 * epsilon / 2)
                        * (1 + tanh ((t - (t_treat + 0.5 * T_max))
                                     / (0.25 * T_max)))).
  split.
  - apply continuity_tanh_rate.
  - intros t. now apply production_rate_tanh_value.
Qed.

Lemma production_rate_tanh_continuous_witness :
  exists rate : R -> R,
    continuity rate
    /\ forall t,
         production_rate_tanh t 2.775 (1.08 / 24) 0.661 0.9738 = Ok (rate t).
Proof.
  apply (production_rate_tanh_continuous 2.775 (1.08 / 24) 0.661 0.9738). lra.
Defined.

(** X20. The step rate is continuous in the time everywhere but at
    [t_treat]; there, for [p0 * epsilon <> 0], it is not continuous. *)
Theorem production_rate_step_single_jump (t_treat p0 epsilon : R) :
  (forall t, t <> t_treat ->
     continuity_pt (fun t => production_rate_step t t_treat p0 epsilon) t)
  /\ (p0 * epsilon <> 0 ->
      ~ continuity_pt (fun t => production_rate_step t t_treat p0 epsilon)
          t_treat).
Proof.
  split.
  - intros t Hne.
    unfold continuity_pt, continue_in, limit1_in, limit_in.
    intros eps Heps. exists (Rabs (t - t_treat)). split.
    + apply Rabs_pos_lt. lra.
    + intros x [_ Hx]. cbn [dist R_met] in *. unfold R_dist in *.
      assert (E : production_rate_step x t_treat p0 epsilon
                  = production_rate_step t t_treat p0 epsilon).
      { unfold production_rate_step, ltb.
        destruct (Rlt_dec x t_treat), (Rlt_dec t t_treat);
          try reflexivity; exfalso; unfold Rabs in Hx;
          destruct (Rcase_abs (x - t)), (Rcase_abs (t - t_treat)); lra. }
      rewrite E, Rminus_diag, Rabs_R0. lra.
  - intros Hne Hc.
    unfold continuity_pt, continue_in, limit1_in, limit_in in Hc.
    assert (Hpos : Rabs (p0 * epsilon) > 0) by (apply Rabs_pos_lt; exact Hne).
    destruct (Hc (Rabs (p0 * epsilon)) Hpos) as [alp [Halp H]].
    specialize (H (t_treat - alp / 2)).
    cbn [dist R_met] in H. unfold R_dist, D_x, no_cond in H.
    assert (Hd : Rabs (t_treat - alp / 2 - t_treat) < alp).
    { replace (t_treat - alp / 2 - t_treat) with (- (alp / 2)) by lra.
      rewrite Rabs_Ropp, Rabs_pos_eq; lra. }
    assert (Hn : t_treat <> t_treat - alp / 2) by lra.
    specialize (H (conj (conj Logic.I Hn) Hd)).
    unfold production_rate_step, ltb in H.
    destruct (Rlt_dec (t_treat - alp / 2) t_treat); [| lra].
    destruct (Rlt_dec t_treat t_treat); [lra |].
    replace (p0 - p0 * (1 - epsilon)) with (p0 * epsilon) in H by ring. lra.
Qed.

Lemma production_rate_step_single_jump_witness :
  continuity_pt (fun t => production_rate_step t 2.775 0.661 0.9738) 3
  /\ ~ continuity_pt (fun t => production_rate_step t 2.775 0.661 0.9738)
         2.775.
Proof.
  destruct (production_rate_step_single_jump 2.775 0.661 0.9738)
    as [Hcont Hjump].
  split; [apply Hcont | apply Hjump]; lra.
Defined.

(** ** The value of the limit of quantification *)

(** X21. The limit of quantification [10**0.7] lies between 5.0118 and
    5.0119. *)
Theorem limit_of_quantification_value :
  5.0118 < limit_of_quantification < 5.0119.
Proof.
  pose proof limit_of_quantification_pos as Hx.
  unfold limit_of_quantification in *.
  assert (E : Rpower 10 0.7 ^ 10 = 10 ^ 7).
  { rewrite <- (Rpower_pow 10 (Rpower 10 0.7)) by exact Hx.
    rewrite Rpower_mult. replace (0.7 * INR 10) with (INR 7).
    - apply Rpower_pow. lra.
    - simpl. lra. }
  split.
  - destruct (Rlt_dec 5.0118 (Rpower 10 0.7)) as [H | H]; [exact H |].
    assert (Hle : Rpower 10 0.7 <= 5.0118) by lra.
    pose proof (pow_incr (Rpower 10 0.7) 5.0118 10
                  (conj (Rlt_le _ _ Hx) Hle)) as Hp.
    rewrite E in Hp. exfalso. revert Hp. apply Rlt_not_le. lra.
  - destruct (Rlt_dec (Rpower 10 0.7) 5.0119) as [H | H]; [exact H |].
    assert (Hle : 5.0119 <= Rpower 10 0.7) by lra.
    assert (H0 : 0 <= 5.0119) by lra.
    pose proof (pow_incr 5.0119 (Rpower 10 0.7) 10 (conj H0 Hle)) as Hp.
    rewrite E in Hp. exfalso. revert Hp. apply Rlt_not_le. lra.
Qed.

(** ** The initial state *)

Lemma simulate_fun_short_state (m : Model) (beta delta p0 c epsilon t : R)
    (y : list R) :
  List.length y <> 3%nat ->
  exists e, simulate_fun m beta delta p0 c epsilon t y = Raise e.
Proof.
  intros H. unfold simulate_fun.
  destruct y as [| a [| b [| d [| x y]]]];
    try (eexists; reflexivity).
  now destruct H.
Qed.

(** X22. A model whose [y0] does not have three components cannot be
    simulated: with an integrator that, run with the model's method,
    evaluates the right-hand side at the initial state, every call of
    [simulate] raises, whatever the policy. *)
Theorem simulate_wrong_y0_length
    (solve_ivp : integrator) (m : Model) (parameters times : list R) :
  List.length (y0 m) <> 3%nat ->
  evaluates_rhs solve_ivp (solver m) ->
  is_ok (fst (simulate solve_ivp parameters times m)) = false.
Proof.
  intros Hy Hsolver. rewrite simulate_run. cbn [fst].
  unfold simulate_value.
  destruct (unpack5 parameters) as [[[[[beta delta] p0] c] epsilon] | e];
    cbn [rbind]; [| reflexivity].
  destruct (py_max times) as [t_end | e]; cbn [rbind]; [| reflexivity].
  unfold integrate.
  destruct (simulate_fun_short_state m beta delta p0 c epsilon 0 (y0 m) Hy)
    as [e Ef].
  destruct (Hsolver (simulate_fun m beta delta p0 c epsilon) (0, t_end)
              (y0 m) times (tolerance m) (tolerance m) (step_size m) e Ef)
    as [e' E].
  rewrite E. reflexivity.
Qed.

Lemma simulate_wrong_y0_length_witness :
  is_ok (fst (simulate euler_ivp fig_params [0; 1]
                (Model_init [4 * 10 ^ 8; 1] "RK45" None None 2.775 "Step"
                   true))) = false.
Proof.
  apply (simulate_wrong_y0_length euler_ivp
           (Model_init [4 * 10 ^ 8; 1] "RK45" None None 2.775 "Step" true)
           fig_params [0; 1]).
  - cbn. lia.
  - apply euler_ivp_evaluates_rhs.
Defined.

(** ** The two policies outside the transition window *)

Lemma exp_double_bound (x c c' : R) :
  0 < c -> c < exp x -> c' <= c * c -> c' < exp (2 * x).
Proof.
  intros Hc H Hc'. replace (2 * x) with (x + x) by ring.
  rewrite exp_plus. nra.
Qed.

Lemma exp_4_lower : 49 < exp 4.
Proof.
  assert (H0 : 1.03125 < exp (1 / 32)).
  { pose proof (exp_ineq1 (1 / 32)). lra. }
  assert (H1 : 1.0634 < exp (1 / 16)).
  { replace (1 / 16) with (2 * (1 / 32)) by lra.
    apply (exp_double_bound _ 1.03125); lra. }
  assert (H2 : 1.1308 < exp (1 / 8)).
  { replace (1 / 8) with (2 * (1 / 16)) by lra.
    apply (exp_double_bound _ 1.0634); lra. }
  assert (H3 : 1.2787 < exp (1 / 4)).
  { replace (1 / 4) with (2 * (1 / 8)) by lra.
    apply (exp_double_bound _ 1.1308); lra. }
  assert (H4 : 1.635 < exp (1 / 2)).
  { replace (1 / 2) with (2 * (1 / 4)) by lra.
    apply (exp_double_bound _ 1.2787); lra. }
  assert (H5 : 2.673 < exp 1).
  { replace (exp 1) with (exp (2 * (1 / 2))) by (f_equal; lra).
    apply (exp_double_bound _ 1.635); lra. }
  assert (H6 : 7.144 < exp 2).
  { replace (exp 2) with (exp (2 * 1)) by (f_equal; lra).
    apply (exp_double_bound _ 2.673); lra. }
  replace (exp 4) with (exp (2 * 2)) by (f_equal; lra).
  apply (exp_double_bound _ 7.144); lra.
Qed.

Lemma tanh_2_lower : 0.96 < tanh 2.
Proof.
  rewrite tanh_as_exp. replace (2 * 2) with 4 by lra.
  pose proof exp_4_lower as He.
  assert (H : / (exp 4 + 1) < / 50).
  { apply Rinv_lt_contravar; lra. }
  unfold Rdiv. lra.
Qed.

(** X23. For [p0 >= 0], [epsilon >= 0] and [T_max > 0], before [t_treat]
    and from [t_treat + T_max] on the tanh rate differs from the step
    rate by at most 2 percent of [p0 * epsilon]. *)
Theorem production_rate_tanh_near_step (t t_treat T_max p0 epsilon : R) :
  0 < T_max -> 0 <= p0 -> 0 <= epsilon ->
  t < t_treat \/ t_treat + T_max <= t ->
  exists p,
    production_rate_tanh t t_treat T_max p0 epsilon = Ok p
    /\ Rabs (p - production_rate_step t t_treat p0 epsilon)
       <= 0.02 * (p0 * epsilon).
Proof.
  intros HT Hp He Ht. rewrite production_rate_tanh_value by lra.
  eexists. split; [reflexivity |].
  set (a := (t - (t_treat + 0.5 * T_max)) / (0.25 * T_max)).
  assert (Ha : a * (0.25 * T_max) = t - (t_treat + 0.5 * T_max)).
  { unfold a. window_arith. }
  pose proof (tanh_bounds a) as Hb. pose proof tanh_2_lower as H2.
  assert (Hpe : 0 <= p0 * epsilon) by nra.
  apply Rabs_le. unfold production_rate_step. destruct Ht as [Ht | Ht].
  - rewrite ltb_true by exact Ht.
    assert (Hlow : a <= Ropp 2) by nra.
    apply tanh_monotone in Hlow. rewrite tanh_odd in Hlow. nra.
  - rewrite ltb_false by lra.
    assert (Hhigh : 2 <= a) by nra.
    apply tanh_monotone in Hhigh. nra.
Qed.

Lemma production_rate_tanh_near_step_witness :
  exists p,
    production_rate_tanh 3 2.775 (1.08 / 24) 0.661 0.9738 = Ok p
    /\ Rabs (p - production_rate_step 3 2.775 0.661 0.9738)
       <= 0.02 * (0.661 * 0.9738).
Proof.
  apply (production_rate_tanh_near_step 3 2.775 (1.08 / 24) 0.661 0.9738);
    lra.
Defined.
